(** * Simple RAG emigration service: the retrieval core of [railway-deployment/main.py]

    The development embeds the two stateful operations of the service,
    [initialize_simple_rag] and [retrieve_context], together with the module
    globals they read and write, and proves the properties the specification
    states about them.

    - Numbers: FAISS labels and [max_results] are Python/64-bit integers,
      modelled in [Z]; a similarity score is a [float32], which (NaN and
      infinities apart) is a rational number, modelled in [Q].
    - Documents are Python dictionaries with string keys, modelled as
      association lists.
    - The libraries the service calls ([sentence_transformers], [faiss]) are
      not part of the repository.  The embedding model is a black box
      ([Embedder]); [faiss.normalize_L2] is a parameter of the development;
      the flat inner-product index follows section 4.3 of the specification
      (module [Faiss]). *)

From Stdlib Require Import List String Ascii ZArith QArith Qabs Bool Lia.
From Stdlib Require Import Sorting.Permutation Sorting.Sorted.
From Stdlib Require Import DecimalString.
Import ListNotations.

Local Open Scope string_scope.
Local Open Scope Z_scope.

(** ** Python values and exceptions *)

(** The exceptions that can travel through the two [try] blocks.  The first
    two are raised by Python itself; the others are the error kinds of the
    external collaborators (specification, section 7).  No code path of
    [main.py] raises [EmptyCorpusError]. *)
Inductive Exception : Type :=
  | KeyError (key : string)
  | IndexError
  | InitializationError (msg : string)
  | VectorizationError (msg : string)
  | DimensionMismatchError
  | InvalidKError
  | EmptyCorpusError.

(** [str(e)].  The texts of the collaborators' errors are not fixed by the
    specification; those below stand for whatever message the library
    gives. *)
Definition str (e : Exception) : string :=
  match e with
  | KeyError k => "'" ++ k ++ "'"
  | IndexError => "tuple index out of range"
  | InitializationError m => m
  | VectorizationError m => m
  | DimensionMismatchError => "dimension mismatch"
  | InvalidKError => "k must be positive"
  | EmptyCorpusError => "empty corpus"
  end.

Definition result (A : Type) : Type := (Exception + A)%type.

Module Py.

(** [str(n)] for an integer. *)
Definition str_int (z : Z) : string := NilZero.string_of_int (Z.to_int z).

(** Truthiness of a [str]: only the empty string is falsy. *)
Definition truthy_str (s : string) : bool := negb (String.eqb s "").

(** [x or d] for an [Optional[int]]: [None] and [0] are falsy. *)
Definition int_or (o : option Z) (d : Z) : Z :=
  match o with
  | None => d
  | Some 0 => d
  | Some n => n
  end.

(** [s.replace(a, b)] for one-character [a] and [b]. *)
Fixpoint replace (a b : ascii) (s : string) : string :=
  match s with
  | EmptyString => EmptyString
  | String c rest =>
      String (if Ascii.eqb c a then b else c) (replace a b rest)
  end.

(** [l[i]] with Python's negative indices. *)
Definition getitem {A : Type} (l : list A) (i : Z) : result A :=
  let n := Z.of_nat (List.length l) in
  let j := if i <? 0 then n + i else i in
  if (0 <=? j) && (j <? n) then
    match nth_error l (Z.to_nat j) with
    | Some x => inr x
    | None => inl IndexError
    end
  else inl IndexError.

(** [f"{o}"] for an [Optional[str]]. *)
Definition format_opt (o : option string) : string :=
  match o with
  | None => "None"
  | Some s => s
  end.

(** [enumerate(l)], counting from [i]. *)
Fixpoint enumerate_from {A : Type} (i : Z) (l : list A) : list (Z * A) :=
  match l with
  | [] => []
  | x :: rest => (i, x) :: enumerate_from (i + 1) rest
  end.

Definition enumerate {A : Type} (l : list A) : list (Z * A) :=
  enumerate_from 0 l.

End Py.

(** A document: a dictionary from field names to text. *)
Definition Document : Type := list (string * string).

(** [doc.get(key)] *)
Fixpoint dict_get (key : string) (doc : Document) : option string :=
  match doc with
  | [] => None
  | (k, v) :: rest => if String.eqb k key then Some v else dict_get key rest
  end.

(** [doc[key]] *)
Definition dict_item (key : string) (doc : Document) : result string :=
  match dict_get key doc with
  | Some v => inr v
  | None => inl (KeyError key)
  end.

(** [doc.get(key, default)] *)
Definition dict_get_default (key : string) (default : string)
    (doc : Document) : string :=
  match dict_get key doc with
  | Some v => v
  | None => default
  end.

(** ** Vectors *)

Definition Vector : Type := list Q.

Fixpoint inner_product (u v : Vector) : Q :=
  match u, v with
  | x :: u', y :: v' => (x * y + inner_product u' v')%Q
  | _, _ => 0%Q
  end.

(** ** The similarity index *)

Module Faiss.

(** Modelled from the spec: [faiss.IndexFlatIP], the SimilarityIndex of
    section 4.3; the library is an external dependency and none of its code
    is in the repository.  An index has a dimension [d], fixed when it is
    created, and stores its vectors in insertion order; the position of a
    vector is its label. *)
Record IndexFlatIP : Type := mkIndex { d : nat; xb : list Vector }.

Definition ntotal (ix : IndexFlatIP) : nat := List.length (xb ix).

(** [faiss.IndexFlatIP(dimension)]: created empty. *)
Definition new (dimension : nat) : IndexFlatIP :=
  {| d := dimension; xb := [] |}.

(** Modelled from the spec: the bulk [add] (the spec's [build]) "fails with
    DimensionMismatchError if any vector's length is not D or if the
    sequence is empty". *)
Definition add (ix : IndexFlatIP) (x : list Vector) : result IndexFlatIP :=
  match x with
  | [] => inl DimensionMismatchError
  | _ =>
      if forallb (fun v => Nat.eqb (List.length v) (d ix)) x
      then inr {| d := d ix; xb := (xb ix ++ x)%list |}
      else inl DimensionMismatchError
  end.

(** A scored label. *)
Definition Hit : Type := (Q * Z)%type.

(** [before a b]: [a] ranks no later than [b], that is by score descending,
    ties by label ascending. *)
Definition before (a b : Hit) : bool :=
  match (fst a ?= fst b)%Q with
  | Gt => true
  | Lt => false
  | Eq => snd a <=? snd b
  end.

Fixpoint insert (a : Hit) (l : list Hit) : list Hit :=
  match l with
  | [] => [a]
  | b :: rest => if before b a then b :: insert a rest else a :: b :: rest
  end.

Fixpoint sort (l : list Hit) : list Hit :=
  match l with
  | [] => []
  | a :: rest => insert a (sort rest)
  end.

(** The inner product of the query against every stored vector, each with
    its label; labels count from [i]. *)
Fixpoint score_all (q : Vector) (i : Z) (vs : list Vector) : list Hit :=
  match vs with
  | [] => []
  | v :: rest => (inner_product q v, i) :: score_all q (i + 1) rest
  end.

(** Modelled from the spec: [search] for one query row, "compute inner
    product of the query against every stored vector; select the top-k by
    score, ties broken by ascending original document index"; it "fails
    with DimensionMismatchError if query dimension is not D, with
    InvalidKError if k <= 0". *)
Definition search1 (ix : IndexFlatIP) (q : Vector) (k : Z)
    : result (list Hit) :=
  if negb (Nat.eqb (List.length q) (d ix)) then inl DimensionMismatchError
  else if k <=? 0 then inl InvalidKError
  else inr (firstn (Z.to_nat k) (sort (score_all q 0 (xb ix)))).

(** [index.search(xq, k)]: one row of hits per query row. *)
Fixpoint search (ix : IndexFlatIP) (xq : list Vector) (k : Z)
    : result (list (list Hit)) :=
  match xq with
  | [] => inr []
  | q :: rest =>
      match search1 ix q k with
      | inl e => inl e
      | inr row =>
          match search ix rest k with
          | inl e => inl e
          | inr rows => inr (row :: rows)
          end
      end
  end.

End Faiss.

(** ** The embedding model *)

(** A loaded [SentenceTransformer].  The model is a black box from a text to
    a vector, and it may raise. *)
Record Embedder : Type := mkEmbedder { embed : string -> result Vector }.

Fixpoint map_result {A B : Type} (f : A -> result B) (l : list A)
    : result (list B) :=
  match l with
  | [] => inr []
  | a :: rest =>
      match f a with
      | inl e => inl e
      | inr b =>
          match map_result f rest with
          | inl e => inl e
          | inr bs => inr (b :: bs)
          end
      end
  end.

(** [embedder.encode(texts)]: row [i] of the result is the embedding of
    [texts[i]]. *)
Definition encode (m : Embedder) (texts : list string) : result (list Vector) :=
  map_result (embed m) texts.

(** [x.shape[1]] of a two-dimensional array; an empty batch is returned by
    [encode] as a one-dimensional array, whose shape has no second entry. *)
Definition shape1 (x : list Vector) : result nat :=
  match x with
  | [] => inl IndexError
  | v :: _ => inr (List.length v)
  end.

(** ** The corpus *)

Definition get_emigration_documents : list Document :=
  [
    [
      ("content",
       "Portugal D7 visa requirements for US citizens include proof of accommodation, health insurance covering at least €30,000, and sufficient funds of approximately €7,200 annually (€600/month). The application process typically takes 60-90 days through Portuguese consulates. Required documents include passport, background check, proof of income, accommodation contract, and health insurance. The D7 visa is renewable and leads to permanent residency after 5 years.");
      ("source",
       "Portugal Immigration Authority 2024");
      ("country",
       "Portugal");
      ("category",
       "visa_requirements")
    ];
    [
      ("content",
       "Cost of living in Lisbon, Portugal: One-bedroom apartments range from €700-1,400/month in central areas, with utilities averaging €80-120/month. Groceries cost 30-40% less than major US cities. Public transportation is €40/month. Restaurant meals range from €8-15 for casual dining. Internet costs €25-40/month for high-speed connections.");
      ("source",
       "Lisbon Cost Analysis 2024");
      ("country",
       "Portugal");
      ("category",
       "cost_of_living")
    ];
    [
      ("content",
       "Spain digital nomad visa allows remote workers to live in Spain while working for foreign companies. Minimum income requirement is €2,000/month. Visa valid for up to 5 years. Required documents include employment contract, proof of income, health insurance, and criminal background check. Processing time is 15-45 days.");
      ("source",
       "Spain Immigration 2024");
      ("country",
       "Spain");
      ("category",
       "visa_requirements")
    ];
    [
      ("content",
       "Mexico Temporary Resident Visa for US citizens requires proof of income ($1,620/month) or bank balance ($27,000). Valid for up to 4 years, renewable. Can lead to permanent residency. Processing through Mexican consulates takes 10-20 business days. Health insurance not mandatory but recommended.");
      ("source",
       "Mexico Immigration 2024");
      ("country",
       "Mexico");
      ("category",
       "visa_requirements")
    ];
    [
      ("content",
       "Germany EU Blue Card for highly skilled workers requires university degree and job offer with salary €56,400+ (€43,992 for shortage occupations). Valid for 4 years, leads to permanent residency after 21 months with B1 German or 33 months with A1 German. Family reunification allowed immediately.");
      ("source",
       "Germany Immigration 2024");
      ("country",
       "Germany");
      ("category",
       "visa_requirements")
    ];
    [
      ("content",
       "Canada Express Entry system for skilled workers uses Comprehensive Ranking System (CRS). Minimum scores vary (typically 470-490). Requires language tests, education assessment, and proof of funds ($13,310 for single applicant). Processing time 6 months. Provincial Nominee Programs offer additional pathways.");
      ("source",
       "Immigration Canada 2024");
      ("country",
       "Canada");
      ("category",
       "visa_requirements")
    ];
    [
      ("content",
       "Australia skilled migration requires occupation on skilled occupation list, skills assessment, and English proficiency. SkillSelect system uses points test. Minimum investment $2,500 AUD application fee plus health exams. Processing 8-12 months. Regional visas available with lower requirements.");
      ("source",
       "Australia Immigration 2024");
      ("country",
       "Australia");
      ("category",
       "visa_requirements")
    ];
    [
      ("content",
       "Costa Rica Pensionado program requires $1,000/month guaranteed pension income. Provides path to permanent residency with benefits including tax exemptions on foreign income, duty-free import of household goods, and reduced healthcare costs. Application through Costa Rican consulates takes 6-12 months.");
      ("source",
       "Costa Rica Immigration 2024");
      ("country",
       "Costa Rica");
      ("category",
       "visa_requirements")
    ]
  ].

(** ** Request and response models *)

Module RAGQuery.
Record t : Type := mk {
  query : string;
  country : option string;
  category : option string;
  max_results : option Z
}.

(** The defaults of the pydantic model. *)
Definition default (q : string) : t :=
  {| query := q; country := None; category := Some "general";
     max_results := Some 5 |}.

Definition with_max_results (r : t) (m : option Z) : t :=
  {| query := query r; country := country r; category := category r;
     max_results := m |}.
End RAGQuery.

(** The [metadata] dictionary of a result. *)
Record ResultMetadata : Type := mkResultMetadata {
  md_country : option string;
  md_category : option string;
  rank : Z;
  document_index : Z
}.

Module RAGResult.
Record t : Type := mk {
  content : string;
  source : string;
  relevance_score : Q;
  metadata : ResultMetadata
}.
End RAGResult.

Module RAGResponse.
Record t : Type := mk {
  results : list RAGResult.t;
  query : string;
  total_results : Z;
  processing_time_ms : Z
}.
End RAGResponse.

(** An [HTTPException].  Raised inside an [except] clause, it carries the
    exception being handled as its [__context__]. *)
Record HTTPException : Type := mkHTTPException {
  status_code : Z;
  detail : string;
  py_context : option Exception
}.

(** The dictionary returned by the health endpoint. *)
Record HealthReport : Type := mkHealthReport {
  status : string;
  message : string;
  model : string;
  documents_indexed : Z
}.

(** ** Module globals *)

Record State : Type := mkState {
  embedder : option Embedder;
  index : option Faiss.IndexFlatIP;
  documents : list Document;
  metadata : list Document;
  loading_error : option string
}.

(** The globals as the module body leaves them. *)
Definition initial_state : State :=
  {| embedder := None; index := None; documents := []; metadata := [];
     loading_error := None |}.

Definition set_embedder (st : State) (m : Embedder) : State :=
  {| embedder := Some m; index := index st; documents := documents st;
     metadata := metadata st; loading_error := loading_error st |}.

Definition set_index (st : State) (ix : Faiss.IndexFlatIP) : State :=
  {| embedder := embedder st; index := Some ix; documents := documents st;
     metadata := metadata st; loading_error := loading_error st |}.

Definition set_documents (st : State) (docs : list Document) : State :=
  {| embedder := embedder st; index := index st; documents := docs;
     metadata := metadata st; loading_error := loading_error st |}.

Definition set_metadata (st : State) (docs : list Document) : State :=
  {| embedder := embedder st; index := index st; documents := documents st;
     metadata := docs; loading_error := loading_error st |}.

(** The [except] clause of [initialize_simple_rag]. *)
Definition set_loading_error (st : State) (e : Exception) : State :=
  {| embedder := embedder st; index := index st; documents := documents st;
     metadata := metadata st; loading_error := Some (str e) |}.

(** ** Calls to the external libraries *)

(** The handler is pure apart from its calls to the libraries; a run yields
    the calls it made, in order, and its outcome. *)
Inductive Call : Type :=
  | CallEncode (texts : list string)
  | CallNormalizeL2 (x : list Vector)
  | CallSearch (xq : list Vector) (k : Z).

Definition M (A : Type) : Type := (list Call * result A)%type.

Definition ret {A : Type} (a : A) : M A := ([], inr a).

Definition lift {A : Type} (r : result A) : M A := ([], r).

Definition call {A : Type} (c : Call) (r : result A) : M A := ([c], r).

Definition bind {A B : Type} (m : M A) (f : A -> M B) : M B :=
  match m with
  | (cs, inl e) => (cs, inl e)
  | (cs, inr a) => let (cs', r) := f a in ((cs ++ cs')%list, r)
  end.

Notation "x <- m ;; k" := (bind m (fun x => k))
  (at level 61, m at next level, right associativity).

(** ** The service *)

Section Service.

(** Configuration, read from the environment. *)
Variable MODEL_NAME : string.

(** [SentenceTransformer(name)]: loading the model may fail. *)
Variable SentenceTransformer : string -> result Embedder.

(** [faiss.normalize_L2], applied to one row. *)
Variable normalize_L2 : Vector -> Vector.

(** The body of [initialize_simple_rag], for the corpus [docs] the loader
    returned.  Each global is assigned as soon as its value is computed;
    the [except] clause records the error and leaves the globals as they
    are at that point.  [index.add] mutates the object the global [index]
    already refers to. *)
Definition initialize_from (docs : list Document) (st : State) : State :=
  match SentenceTransformer MODEL_NAME with
  | inl e => set_loading_error st e
  | inr m =>
      let st := set_embedder st m in
      let st := set_documents st docs in
      match map_result (dict_item "content") (documents st) with
      | inl e => set_loading_error st e
      | inr texts =>
          match encode m texts with
          | inl e => set_loading_error st e
          | inr doc_embeddings =>
              match shape1 doc_embeddings with
              | inl e => set_loading_error st e
              | inr dimension =>
                  let st := set_index st (Faiss.new dimension) in
                  let doc_embeddings := map normalize_L2 doc_embeddings in
                  match Faiss.add (Faiss.new dimension) doc_embeddings with
                  | inl e => set_loading_error st e
                  | inr ix =>
                      let st := set_index st ix in
                      set_metadata st (documents st)
                  end
              end
          end
      end
  end.

Definition initialize_simple_rag (st : State) : State :=
  initialize_from get_emigration_documents st.

(** The query text handed to the model: [if request.country:] and
    [if request.category and request.category != "general":] test the
    truthiness of an [Optional[str]], false on [None] and on [""]. *)
Definition enhance_query (request : RAGQuery.t) : string :=
  let enhanced_query := RAGQuery.query request in
  let enhanced_query :=
    match RAGQuery.country request with
    | Some c =>
        if Py.truthy_str c then enhanced_query ++ " " ++ c
        else enhanced_query
    | None => enhanced_query
    end in
  match RAGQuery.category request with
  | Some c =>
      if Py.truthy_str c && negb (String.eqb c "general")
      then enhanced_query ++ " " ++ Py.replace "_" " " c
      else enhanced_query
  | None => enhanced_query
  end.

(** The [RAGResult(...)] built for the hit [(score, idx)] at position [i]
    of the row, from the document [doc] and its content [c]. *)
Definition make_result (i : Z) (score : Q) (idx : Z) (doc : Document)
    (c : string) : RAGResult.t :=
  {| RAGResult.content := c;
     RAGResult.source :=
       dict_get_default "source" ("Document " ++ Py.str_int idx) doc;
     RAGResult.relevance_score := score;
     RAGResult.metadata :=
       {| md_country := dict_get "country" doc;
          md_category := dict_get "category" doc;
          rank := i + 1;
          document_index := idx |} |}.

(** The result-formatting loop over [enumerate(zip(scores[0], indices[0]))];
    [acc] is the list [results] built so far. *)
Fixpoint format_results (md : list Document) (row : list (Z * Faiss.Hit))
    (acc : list RAGResult.t) : result (list RAGResult.t) :=
  match row with
  | [] => inr acc
  | (i, (score, idx)) :: rest =>
      if idx <? Z.of_nat (List.length md) then
        match Py.getitem md idx with
        | inl e => inl e
        | inr doc =>
            match dict_item "content" doc with
            | inl e => inl e
            | inr c =>
                format_results md rest
                  (acc ++ [make_result i score idx doc c])
            end
        end
      else format_results md rest acc
  end.

(** [k = min(request.max_results or 5, len(documents))] *)
Definition effective_k (st : State) (request : RAGQuery.t) : Z :=
  Z.min (Py.int_or (RAGQuery.max_results request) 5)
        (Z.of_nat (List.length (documents st))).

(** The [try] block of [retrieve_context]; [elapsed] is the measured
    processing time in milliseconds. *)
Definition retrieve_body (m : Embedder) (ix : Faiss.IndexFlatIP)
    (st : State) (request : RAGQuery.t) (elapsed : Z) : M RAGResponse.t :=
  let enhanced_query := enhance_query request in
  query_embedding <-
    call (CallEncode [enhanced_query]) (encode m [enhanced_query]) ;;
  query_embedding' <-
    call (CallNormalizeL2 query_embedding)
         (inr (map normalize_L2 query_embedding)) ;;
  let k := effective_k st request in
  rows <- call (CallSearch query_embedding' k)
               (Faiss.search ix query_embedding' k) ;;
  row0 <- lift (Py.getitem rows 0) ;;
  results <- lift (format_results (metadata st) (Py.enumerate row0) []) ;;
  ret {| RAGResponse.results := results;
         RAGResponse.query := RAGQuery.query request;
         RAGResponse.total_results := Z.of_nat (List.length results);
         RAGResponse.processing_time_ms := elapsed |}.

(** [retrieve_context], after the API-key dependency has let the request
    through.  The objects held by [embedder] and [index] are truthy, so
    [not embedder or not index] tests for [None]. *)
Definition retrieve_context (st : State) (request : RAGQuery.t)
    (elapsed : Z) : list Call * (HTTPException + RAGResponse.t) :=
  match embedder st, index st with
  | Some m, Some ix =>
      match retrieve_body m ix st request elapsed with
      | (calls, inr response) => (calls, inr response)
      | (calls, inl e) =>
          (calls,
           inl {| status_code := 500;
                  detail := "Search failed: " ++ str e;
                  py_context := Some e |})
      end
  | _, _ =>
      ([],
       inl {| status_code := 503;
              detail := "Simple RAG not initialized: "
                        ++ Py.format_opt (loading_error st);
              py_context := None |})
  end.

(** [health_check], without its timestamp and version fields. *)
Definition health_check (st : State) : HealthReport :=
  let healthy :=
    match embedder st, index st with
    | Some _, Some _ => true
    | _, _ => false
    end in
  {| status := if healthy then "healthy" else "unhealthy";
     message :=
       if healthy then "Simple RAG service operational"
       else "Initialization failed: " ++ Py.format_opt (loading_error st);
     model :=
       match embedder st with
       | Some _ => MODEL_NAME
       | None => "Not loaded"
       end;
     documents_indexed := Z.of_nat (List.length (documents st)) |}.

End Service.

(** ** A small executable backend

    A deterministic stand-in for the two libraries, used to run the service
    on concrete inputs: a three-dimensional letter-count model and a
    fixed-point L2 normalisation. *)

Module TestBackend.

Fixpoint count (c : ascii) (s : string) : Z :=
  match s with
  | EmptyString => 0
  | String c' rest => (if Ascii.eqb c' c then 1 else 0) + count c rest
  end.

Definition letters (s : string) : Vector :=
  [inject_Z (count "a" s); inject_Z (count "e" s); inject_Z (count "o" s)].

Definition model : Embedder := {| embed := fun s => inr (letters s) |}.

(** A model that loads but cannot run inference. *)
Definition broken_model : Embedder :=
  {| embed := fun _ => inl (VectorizationError "out of memory") |}.

Definition load (name : string) : result Embedder := inr model.

Definition load_broken (name : string) : result Embedder := inr broken_model.

Definition load_fails (name : string) : result Embedder :=
  inl (InitializationError "model not found").

(** The square root of a non-negative rational, to six decimals. *)
Definition sqrt6 (x : Q) : Q :=
  (Z.sqrt (Qnum x * 1000000000000 / Z.pos (Qden x)) # 1000000)%Q.

(** [v / |v|]; a vector whose norm rounds to zero is left as it is. *)
Definition normalize_L2 (v : Vector) : Vector :=
  let n := sqrt6 (inner_product v v) in
  if Qeq_bool n 0 then v else map (fun x => Qred (x / n)%Q) v.

Definition MODEL_NAME : string := "all-MiniLM-L6-v2".

(** The globals after start-up with this backend. *)
Definition started : State :=
  initialize_simple_rag MODEL_NAME load normalize_L2 initial_state.

Definition started_index : Faiss.IndexFlatIP :=
  match index started with
  | Some ix => ix
  | None => Faiss.new 0
  end.

(** The globals after a start-up whose model loads but cannot embed. *)
Definition half_started : State :=
  initialize_simple_rag MODEL_NAME load_broken normalize_L2 initial_state.

(** The globals after a start-up whose model does not load. *)
Definition not_started : State :=
  initialize_simple_rag MODEL_NAME load_fails normalize_L2 initial_state.

(** A model and an index over no document at all; no start-up produces
    these globals, whose index would have to be built from an empty
    batch. *)
Definition empty_ready : State :=
  {| embedder := Some model; index := Some (Faiss.new 3); documents := [];
     metadata := []; loading_error := None |}.

(** The scenario of the specification: three stored vectors and the query
    [[1, 0]]. *)
Definition scenario_index : Faiss.IndexFlatIP :=
  {| Faiss.d := 2;
     Faiss.xb := [[1; 0]; [0; 1]; [7 # 10; 7 # 10]]%Q |}.

End TestBackend.

(** ** Specification predicates *)

(** [a] ranks no later than [b]: higher score, or equal score and label not
    larger. *)
Definition ranks_before (a b : Faiss.Hit) : Prop :=
  (fst b < fst a)%Q \/ ((fst a == fst b)%Q /\ snd a <= snd b).

(** [a] ranks strictly before [b]: higher score, or equal score and smaller
    label. *)
Definition strictly_before (a b : Faiss.Hit) : Prop :=
  (fst b < fst a)%Q \/ ((fst a == fst b)%Q /\ snd a < snd b).

(** Scores do not increase along the list. *)
Definition scores_non_increasing (hits : list Faiss.Hit) : Prop :=
  StronglySorted (fun a b => (fst b <= fst a)%Q) hits.

(** The result expected for an enumerated hit whose label is a position of
    [md] and whose document has a content. *)
Definition render (md : list Document) (ih : Z * Faiss.Hit) : RAGResult.t :=
  let doc := nth (Z.to_nat (snd (snd ih))) md [] in
  make_result (fst ih) (fst (snd ih)) (snd (snd ih)) doc
    (dict_get_default "content" "" doc).

(** The state a completed start-up leaves: model and index present, the
    metadata list is the corpus, and the vector stored at position [i] is the
    normalised embedding of the content of document [i]. *)
Record aligned (normalize_L2 : Vector -> Vector) (st : State)
    (m : Embedder) (ix : Faiss.IndexFlatIP) : Prop := mkAligned {
  al_embedder : embedder st = Some m;
  al_index : index st = Some ix;
  al_metadata : metadata st = documents st;
  al_ntotal : Faiss.ntotal ix = List.length (documents st);
  al_vectors :
    forall i doc, nth_error (documents st) i = Some doc ->
      exists c v, dict_get "content" doc = Some c /\
                  embed m c = inr v /\
                  nth_error (Faiss.xb ix) i = Some (normalize_L2 v)
}.

(** A row is well formed for [md] when every label is a position of [md]
    whose document has a content. *)
Definition row_ok (md : list Document) (row : list (Z * Faiss.Hit)) : Prop :=
  Forall (fun ih =>
            0 <= snd (snd ih) < Z.of_nat (List.length md) /\
            exists c, dict_get "content" (nth (Z.to_nat (snd (snd ih))) md [])
                      = Some c) row.

(** The enhanced query as the specification words it: the country is
    appended whenever it is given, the category whenever it is given and is
    not ["general"]. *)
Definition specified_enhanced_query (request : RAGQuery.t) : string :=
  RAGQuery.query request
  ++ match RAGQuery.country request with
     | Some c => " " ++ c
     | None => ""
     end
  ++ match RAGQuery.category request with
     | Some c =>
         if String.eqb c "general" then "" else " " ++ Py.replace "_" " " c
     | None => ""
     end.

(** The same, with an empty country or category counted as not given. *)
Definition truthy_enhanced_query (request : RAGQuery.t) : string :=
  RAGQuery.query request
  ++ match RAGQuery.country request with
     | Some c => if String.eqb c "" then "" else " " ++ c
     | None => ""
     end
  ++ match RAGQuery.category request with
     | Some c =>
         if String.eqb c "" || String.eqb c "general" then ""
         else " " ++ Py.replace "_" " " c
     | None => ""
     end.

(** The request of the query-enhancement scenario. *)
Definition scenario_request : RAGQuery.t :=
  {| RAGQuery.query := "visa requirements";
     RAGQuery.country := Some "Portugal";
     RAGQuery.category := Some "cost_of_living";
     RAGQuery.max_results := Some 5 |}.

(** The texts of the [encode] calls of a run. *)
Fixpoint encoded_texts (calls : list Call) : list (list string) :=
  match calls with
  | [] => []
  | CallEncode texts :: rest => texts :: encoded_texts rest
  | _ :: rest => encoded_texts rest
  end.

(** The number of [search] calls of a run. *)
Fixpoint search_calls (calls : list Call) : nat :=
  match calls with
  | [] => O
  | CallSearch _ _ :: rest => S (search_calls rest)
  | _ :: rest => search_calls rest
  end.

(** C2 as the specification states it: on an empty corpus the handler fails,
    and the failure is an [EmptyCorpusError]. *)
Definition empty_corpus_claim (normalize_L2 : Vector -> Vector) : Prop :=
  forall st request elapsed,
    documents st = [] ->
    exists calls http,
      retrieve_context normalize_L2 st request elapsed = (calls, inl http) /\
      py_context http = Some EmptyCorpusError.

(** The globals before start-up as far as the engine is concerned: no model,
    no index, no corpus. *)
Definition pre_init (st : State) : Prop :=
  embedder st = None /\ index st = None /\
  documents st = [] /\ metadata st = [].

(** C7 as the specification states it: after start-up the globals are
    either fully initialized, or entirely in the pre-init state with the
    error recorded. *)
Definition atomic_initialization_claim (MODEL_NAME : string)
    (SentenceTransformer : string -> result Embedder)
    (normalize_L2 : Vector -> Vector) : Prop :=
  let st := initialize_simple_rag MODEL_NAME SentenceTransformer normalize_L2
              initial_state in
  (loading_error st = None /\ exists m ix, aligned normalize_L2 st m ix) \/
  (loading_error st <> None /\ pre_init st).

(** A result is taken from the document [doc] stored at its
    [document_index]. *)
Definition result_from (docs : list Document) (r : RAGResult.t)
    (doc : Document) : Prop :=
  let idx := document_index (RAGResult.metadata r) in
  0 <= idx /\
  nth_error docs (Z.to_nat idx) = Some doc /\
  dict_get "content" doc = Some (RAGResult.content r) /\
  RAGResult.source r
    = dict_get_default "source" ("Document " ++ Py.str_int idx) doc /\
  md_country (RAGResult.metadata r) = dict_get "country" doc /\
  md_category (RAGResult.metadata r) = dict_get "category" doc.

(** ** The routes around the handler *)

(** [verify_api_key], for the bearer token [credentials] of the request and
    the configured [API_KEY]. *)
Definition verify_api_key (API_KEY : string) (credentials : string)
    : HTTPException + string :=
  if negb (String.eqb credentials API_KEY) then
    inl {| status_code := 401; detail := "Invalid API key";
           py_context := None |}
  else inr credentials.

(** The route [POST /retrieve-context]: the [verify_api_key] dependency is
    resolved first, and the handler body runs only if it returns. *)
Definition retrieve_context_route (API_KEY : string)
    (normalize_L2 : Vector -> Vector) (st : State) (credentials : string)
    (request : RAGQuery.t) (elapsed : Z)
    : list Call * (HTTPException + RAGResponse.t) :=
  match verify_api_key API_KEY credentials with
  | inl e => ([], inl e)
  | inr api_key => retrieve_context normalize_L2 st request elapsed
  end.

(** The dictionary returned by the root endpoint. *)
Record RootReport : Type := mkRootReport {
  root_service : string;
  root_status : string;
  root_version : string;
  root_approach : string;
  root_docs : string
}.

(** [root]; the objects held by [embedder] and [index] are truthy, so
    [embedder and index] is falsy exactly when one of them is [None]. *)
Definition root (st : State) : RootReport :=
  {| root_service := "Simple RAG Emigration Service";
     root_status :=
       match embedder st, index st with
       | Some _, Some _ => "healthy"
       | _, _ => "unhealthy"
       end;
     root_version := "1.0.0-simple";
     root_approach := "sentence-transformers + FAISS";
     root_docs := "/docs" |}.

(** ** More inputs for the executable backend *)

Module Fixtures.

(** A corpus whose second document names neither source nor country. *)
Definition sparse_documents : list Document :=
  [ [("content", "Portugal visa"); ("source", "Consulate");
     ("country", "Portugal"); ("category", "visa_requirements")];
    [("content", "Cost of bread in Spain")] ].

(** A corpus whose second document has no content. *)
Definition broken_documents : list Document :=
  [ [("content", "Portugal visa"); ("source", "Consulate")];
    [("source", "Nowhere")] ].

Definition start (docs : list Document) : State :=
  initialize_from TestBackend.MODEL_NAME TestBackend.load
    TestBackend.normalize_L2 docs initial_state.

(** A model that embeds the corpus but fails on a question mark. *)
Definition picky_model : Embedder :=
  {| embed := fun s =>
       if (0 <? TestBackend.count "?" s)
       then inl (VectorizationError "unsupported input")
       else inr (TestBackend.letters s) |}.

Definition load_picky (name : string) : result Embedder := inr picky_model.

Definition picky_started : State :=
  initialize_simple_rag TestBackend.MODEL_NAME load_picky
    TestBackend.normalize_L2 initial_state.

End Fixtures.

(** The scored labels of the results of a response, in order. *)
Definition response_hits (response : RAGResponse.t) : list Faiss.Hit :=
  map (fun r => (RAGResult.relevance_score r,
                 document_index (RAGResult.metadata r)))
      (RAGResponse.results response).

(** [p] is a prefix of [l]. *)
Definition is_prefix {A : Type} (p l : list A) : Prop :=
  exists rest, l = (p ++ rest)%list.

(** * Facts about the index *)

Lemma before_spec (a b : Faiss.Hit) :
  Faiss.before a b = true <-> ranks_before a b.
Proof.
  unfold Faiss.before, ranks_before.
  destruct (fst a ?= fst b)%Q eqn:E.
  - apply Qeq_alt in E. rewrite Z.leb_le. split.
    + intros H. right. split; assumption.
    + intros [H | [_ H]]; [| exact H].
      rewrite E in H. exfalso. exact (Qlt_irrefl _ H).
  - apply Qlt_alt in E. split; [discriminate |].
    intros [H | [H _]].
    + exfalso. exact (Qlt_irrefl _ (Qlt_trans _ _ _ E H)).
    + rewrite H in E. exfalso. exact (Qlt_irrefl _ E).
  - apply Qgt_alt in E. split; [| reflexivity].
    intros _. left. exact E.
Qed.

Lemma before_total (a b : Faiss.Hit) :
  Faiss.before a b = false -> ranks_before b a.
Proof.
  unfold Faiss.before, ranks_before.
  destruct (fst a ?= fst b)%Q eqn:E; try discriminate.
  - apply Qeq_alt in E. rewrite Z.leb_gt. intros H. right.
    split; [symmetry; exact E | lia].
  - apply Qlt_alt in E. intros _. left. exact E.
Qed.

Lemma ranks_before_trans (a b c : Faiss.Hit) :
  ranks_before a b -> ranks_before b c -> ranks_before a c.
Proof.
  unfold ranks_before.
  intros [H1 | [H1 L1]] [H2 | [H2 L2]].
  - left. exact (Qlt_trans _ _ _ H2 H1).
  - left. rewrite <- H2. exact H1.
  - left. rewrite H1. exact H2.
  - right. split; [rewrite H1; exact H2 | lia].
Qed.

Lemma insert_perm (a : Faiss.Hit) (l : list Faiss.Hit) :
  Permutation (Faiss.insert a l) (a :: l).
Proof.
  induction l as [| b l IH]; simpl.
  - apply Permutation_refl.
  - destruct (Faiss.before b a).
    + eapply perm_trans; [apply perm_skip; exact IH | apply perm_swap].
    + apply Permutation_refl.
Qed.

Lemma sort_perm (l : list Faiss.Hit) : Permutation (Faiss.sort l) l.
Proof.
  induction l as [| a l IH]; simpl.
  - constructor.
  - eapply perm_trans; [apply insert_perm | apply perm_skip; exact IH].
Qed.

Lemma insert_sorted (a : Faiss.Hit) (l : list Faiss.Hit) :
  StronglySorted ranks_before l ->
  StronglySorted ranks_before (Faiss.insert a l).
Proof.
  induction 1 as [| b l Hs IH Hb]; simpl.
  - constructor; constructor.
  - destruct (Faiss.before b a) eqn:E.
    + constructor; [exact IH |].
      apply before_spec in E.
      rewrite Forall_forall in *. intros x Hx.
      apply (Permutation_in _ (insert_perm a l)) in Hx.
      destruct Hx as [<- | Hx]; [exact E | apply Hb; exact Hx].
    + apply before_total in E.
      constructor; [constructor; assumption |].
      constructor; [exact E |].
      rewrite Forall_forall in *. intros x Hx.
      eapply ranks_before_trans; [exact E | apply Hb; exact Hx].
Qed.

Lemma sort_sorted (l : list Faiss.Hit) :
  StronglySorted ranks_before (Faiss.sort l).
Proof.
  induction l as [| a l IH]; simpl.
  - constructor.
  - apply insert_sorted. exact IH.
Qed.

Lemma score_all_length (q : Vector) (i : Z) (vs : list Vector) :
  List.length (Faiss.score_all q i vs) = List.length vs.
Proof.
  revert i. induction vs as [| v vs IH]; intros i; simpl.
  - reflexivity.
  - rewrite IH. reflexivity.
Qed.

Lemma score_all_In (q : Vector) (vs : list Vector) :
  forall i s j,
    In (s, j) (Faiss.score_all q i vs) ->
    i <= j /\
    exists v, nth_error vs (Z.to_nat (j - i)) = Some v /\
              s = inner_product q v.
Proof.
  induction vs as [| v vs IH]; intros i s j H; simpl in H.
  - contradiction.
  - destruct H as [H | H].
    + inversion H; subst. split; [lia |].
      exists v. rewrite Z.sub_diag. split; reflexivity.
    + apply IH in H. destruct H as [Hle [w [Hn Hs]]].
      split; [lia |]. exists w. split; [| exact Hs].
      replace (Z.to_nat (j - i)) with (S (Z.to_nat (j - (i + 1)))) by lia.
      exact Hn.
Qed.

Lemma score_all_nth (q : Vector) (vs : list Vector) :
  forall i n v,
    nth_error vs n = Some v ->
    In (inner_product q v, i + Z.of_nat n) (Faiss.score_all q i vs).
Proof.
  induction vs as [| w vs IH]; intros i n v H.
  - destruct n; discriminate.
  - destruct n as [| n]; simpl in H.
    + inversion H; subst. left. simpl. rewrite Z.add_0_r. reflexivity.
    + right. replace (i + Z.of_nat (S n)) with ((i + 1) + Z.of_nat n) by lia.
      apply IH. exact H.
Qed.

Lemma score_all_labels_NoDup (q : Vector) (vs : list Vector) (i : Z) :
  NoDup (map snd (Faiss.score_all q i vs)).
Proof.
  revert i. induction vs as [| v vs IH]; intros i; simpl.
  - constructor.
  - constructor; [| apply IH].
    intros H. apply in_map_iff in H. destruct H as [[s j] [Hj Hin]].
    simpl in Hj. subst j. apply score_all_In in Hin. lia.
Qed.

Lemma sorted_strict (l : list Faiss.Hit) :
  StronglySorted ranks_before l ->
  NoDup (map snd l) ->
  StronglySorted strictly_before l.
Proof.
  induction 1 as [| a l Hs IH Ha]; intros Hn.
  - constructor.
  - simpl in Hn. inversion Hn as [| x xs Hnotin Hn']; subst.
    constructor; [apply IH; exact Hn' |].
    rewrite Forall_forall in *. intros b Hb.
    destruct (Ha b Hb) as [H | [H Hle]]; [left; exact H |].
    right. split; [exact H |].
    assert (snd a <> snd b).
    { intros E. apply Hnotin. rewrite E. apply in_map. exact Hb. }
    lia.
Qed.

Lemma sorted_firstn {A : Type} (R : A -> A -> Prop) (l : list A) :
  StronglySorted R l -> forall n, StronglySorted R (firstn n l).
Proof.
  induction 1 as [| a l Hs IH Ha]; intros n.
  - rewrite firstn_nil. constructor.
  - destruct n as [| n]; simpl; [constructor |].
    constructor; [apply IH |].
    rewrite Forall_forall in *. intros b Hb.
    apply Ha. rewrite <- (firstn_skipn n l).
    apply in_or_app. left. exact Hb.
Qed.

Lemma sorted_firstn_skipn {A : Type} (R : A -> A -> Prop) (l : list A) :
  StronglySorted R l ->
  forall n a b, In a (firstn n l) -> In b (skipn n l) -> R a b.
Proof.
  induction 1 as [| x l Hs IH Hx]; intros n a b Ha Hb.
  - rewrite firstn_nil in Ha. contradiction.
  - destruct n as [| n]; simpl in Ha, Hb; [contradiction |].
    destruct Ha as [<- | Ha].
    + rewrite Forall_forall in Hx. apply Hx.
      rewrite <- (firstn_skipn n l). apply in_or_app. right. exact Hb.
    + eapply IH; eassumption.
Qed.

Lemma strictly_before_scores (a b : Faiss.Hit) :
  strictly_before a b -> (fst b <= fst a)%Q.
Proof.
  intros [H | [H _]].
  - apply Qlt_le_weak. exact H.
  - rewrite H. apply Qle_refl.
Qed.

Lemma sorted_weaken {A : Type} (R S : A -> A -> Prop) (l : list A) :
  (forall a b, R a b -> S a b) -> StronglySorted R l -> StronglySorted S l.
Proof.
  intros HRS. induction 1 as [| a l Hs IH Ha].
  - constructor.
  - constructor; [exact IH |].
    eapply Forall_impl; [| exact Ha]. intros b. apply HRS.
Qed.

(** The hits of a search, characterised without reference to the sort. *)
Lemma search1_hits (ix : Faiss.IndexFlatIP) (q : Vector) (k : Z) :
  let hits := firstn (Z.to_nat k) (Faiss.sort (Faiss.score_all q 0 (Faiss.xb ix))) in
  List.length hits = Nat.min (Z.to_nat k) (Faiss.ntotal ix) /\
  (forall s i, In (s, i) hits ->
     0 <= i < Z.of_nat (Faiss.ntotal ix) /\
     exists v, nth_error (Faiss.xb ix) (Z.to_nat i) = Some v /\
               s = inner_product q v) /\
  StronglySorted strictly_before hits /\
  (forall j v, nth_error (Faiss.xb ix) j = Some v ->
     ~ In (Z.of_nat j) (map snd hits) ->
     forall h, In h hits -> strictly_before h (inner_product q v, Z.of_nat j)).
Proof.
  intros hits. subst hits.
  set (all := Faiss.score_all q 0 (Faiss.xb ix)).
  assert (Hperm : Permutation (Faiss.sort all) all) by apply sort_perm.
  assert (Hstrict : StronglySorted strictly_before (Faiss.sort all)).
  { apply sorted_strict; [apply sort_sorted |].
    eapply Permutation_NoDup.
    - apply Permutation_map. apply Permutation_sym. exact Hperm.
    - apply score_all_labels_NoDup. }
  split; [| split; [| split]].
  - rewrite length_firstn, (Permutation_length Hperm).
    unfold all. rewrite score_all_length. reflexivity.
  - intros s i Hin.
    assert (Hall : In (s, i) all).
    { apply (Permutation_in _ Hperm).
      rewrite <- (firstn_skipn (Z.to_nat k) (Faiss.sort all)).
      apply in_or_app. left. exact Hin. }
    apply score_all_In in Hall. destruct Hall as [Hle [v [Hn Hs]]].
    rewrite Z.sub_0_r in Hn.
    split; [| exists v; split; assumption].
    split; [exact Hle |].
    assert (Z.to_nat i < List.length (Faiss.xb ix))%nat.
    { apply nth_error_Some. rewrite Hn. discriminate. }
    unfold Faiss.ntotal. lia.
  - apply sorted_firstn. exact Hstrict.
  - intros j v Hj Hnot h Hh.
    apply (sorted_firstn_skipn _ _ Hstrict (Z.to_nat k)); [exact Hh |].
    assert (Hall : In (inner_product q v, Z.of_nat j) (Faiss.sort all)).
    { apply (Permutation_in _ (Permutation_sym Hperm)).
      apply (score_all_nth q (Faiss.xb ix) 0 j v Hj). }
    rewrite <- (firstn_skipn (Z.to_nat k) (Faiss.sort all)) in Hall.
    apply in_app_or in Hall. destruct Hall as [Hall | Hall]; [| exact Hall].
    exfalso. apply Hnot.
    change (Z.of_nat j) with (snd (inner_product q v, Z.of_nat j)).
    apply in_map. exact Hall.
Qed.

(** * Top-k search *)

(** C1.  For every index (in particular every non-empty one), every query
    vector of the index dimension and every positive [k], the search succeeds
    and returns [min k ntotal] hits.  Each hit carries a label of a stored
    vector and exactly the inner product of the query with that vector (so it
    agrees with the brute-force score within the 1e-6 tolerance); the scores
    are non-increasing; hits of equal score appear by ascending label; and
    every stored vector that was not returned ranks strictly after every hit
    that was, so the hits are the brute-force top-k. *)
Theorem search_returns_top_k (ix : Faiss.IndexFlatIP) (q : Vector) (k : Z) :
  List.length q = Faiss.d ix ->
  0 < k ->
  exists hits,
    Faiss.search1 ix q k = inr hits /\
    List.length hits = Nat.min (Z.to_nat k) (Faiss.ntotal ix) /\
    (forall s i, In (s, i) hits ->
       0 <= i < Z.of_nat (Faiss.ntotal ix) /\
       exists v, nth_error (Faiss.xb ix) (Z.to_nat i) = Some v /\
                 s = inner_product q v /\
                 (Qabs (s - inner_product q v) <= 1 # 1000000)%Q) /\
    scores_non_increasing hits /\
    StronglySorted strictly_before hits /\
    (forall j v, nth_error (Faiss.xb ix) j = Some v ->
       ~ In (Z.of_nat j) (map snd hits) ->
       forall h, In h hits ->
         strictly_before h (inner_product q v, Z.of_nat j)).
Proof.
  intros Hd Hk.
  destruct (search1_hits ix q k) as [Hlen [Hin [Hs Htop]]].
  eexists. split.
  - unfold Faiss.search1.
    rewrite Hd, Nat.eqb_refl. simpl.
    destruct (k <=? 0) eqn:E; [apply Z.leb_le in E; lia |].
    reflexivity.
  - split; [exact Hlen |].
    split.
    { intros s i H. destruct (Hin s i H) as [Hr [v [Hn Hv]]].
      split; [exact Hr |]. exists v. split; [exact Hn |].
      split; [exact Hv |].
      subst s. setoid_replace (inner_product q v - inner_product q v)%Q
        with 0%Q by ring.
      discriminate. }
    split.
    { eapply sorted_weaken; [| exact Hs].
      intros a b. apply strictly_before_scores. }
    split; [exact Hs | exact Htop].
Qed.

(** The scenario of the specification: with stored vectors [[1,0]], [[0,1]]
    and [[0.7,0.7]], the query [[1,0]] and [k = 2], document 0 comes first
    with score 1, then document 2 with score 0.7, and document 1 is left
    out. *)
Lemma search_returns_top_k_witness :
  exists hits,
    Faiss.search1 TestBackend.scenario_index [1; 0]%Q 2 = inr hits /\
    map snd hits = [0; 2] /\
    Forall2 Qeq (map fst hits) [1; 7 # 10]%Q /\
    scores_non_increasing hits /\
    StronglySorted strictly_before hits.
Proof.
  destruct (search_returns_top_k TestBackend.scenario_index [1; 0]%Q 2)
    as [hits [Hsearch [_ [_ [Hdesc [Hstrict _]]]]]].
  - reflexivity.
  - lia.
  - exists hits. split; [exact Hsearch |].
    split; [| split; [| split; assumption]].
    + vm_compute in Hsearch. inversion Hsearch. reflexivity.
    + vm_compute in Hsearch. inversion Hsearch. simpl.
      repeat constructor.
Defined.

(** * Facts about the handler *)

Lemma getitem_nth {A : Type} (l : list A) (i : Z) (dflt : A) :
  0 <= i < Z.of_nat (List.length l) ->
  Py.getitem l i = inr (nth (Z.to_nat i) l dflt).
Proof.
  intros H. unfold Py.getitem.
  destruct (i <? 0) eqn:E; [apply Z.ltb_lt in E; lia |].
  replace (0 <=? i) with true by (symmetry; apply Z.leb_le; lia).
  replace (i <? Z.of_nat (List.length l)) with true
    by (symmetry; apply Z.ltb_lt; lia).
  simpl.
  destruct (nth_error l (Z.to_nat i)) as [x |] eqn:En.
  - rewrite (nth_error_nth _ _ dflt En). reflexivity.
  - apply nth_error_None in En. lia.
Qed.

Lemma format_results_render (md : list Document) (row : list (Z * Faiss.Hit)) :
  row_ok md row ->
  forall acc, format_results md row acc = inr (acc ++ map (render md) row)%list.
Proof.
  induction 1 as [| [i [s idx]] row [Hr [c Hc]] Hrow IH]; intros acc; simpl.
  - rewrite app_nil_r. reflexivity.
  - simpl in Hr, Hc.
    replace (idx <? Z.of_nat (List.length md)) with true
      by (symmetry; apply Z.ltb_lt; lia).
    rewrite (getitem_nth md idx [] Hr).
    unfold dict_item. rewrite Hc.
    rewrite IH, <- app_assoc. simpl.
    assert (E : render md (i, (s, idx))
                = make_result i s idx (nth (Z.to_nat idx) md []) c).
    { unfold render. simpl. f_equal.
      unfold dict_get_default. rewrite Hc. reflexivity. }
    rewrite E. reflexivity.
Qed.

Lemma enumerate_from_length {A : Type} (l : list A) (i : Z) :
  List.length (Py.enumerate_from i l) = List.length l.
Proof.
  revert i. induction l as [| a l IH]; intros i; simpl.
  - reflexivity.
  - rewrite IH. reflexivity.
Qed.

Lemma enumerate_from_In {A : Type} (l : list A) :
  forall i j a, In (j, a) (Py.enumerate_from i l) -> In a l.
Proof.
  induction l as [| b l IH]; intros i j a H; simpl in H.
  - contradiction.
  - destruct H as [H | H].
    + inversion H. left. reflexivity.
    + right. eapply IH. exact H.
Qed.

Section HandlerFacts.

Variable normalize_L2 : Vector -> Vector.

(** The [try] block, call by call. *)
Lemma retrieve_body_unfold (m : Embedder) (ix : Faiss.IndexFlatIP)
    (st : State) (request : RAGQuery.t) (elapsed : Z) :
  retrieve_body normalize_L2 m ix st request elapsed =
  let text := enhance_query request in
  match embed m text with
  | inl e => ([CallEncode [text]], inl e)
  | inr v =>
      let q := normalize_L2 v in
      let k := effective_k st request in
      let calls :=
        [CallEncode [text]; CallNormalizeL2 [v]; CallSearch [q] k] in
      match Faiss.search1 ix q k with
      | inl e => (calls, inl e)
      | inr row =>
          match format_results (metadata st) (Py.enumerate row) [] with
          | inl e => (calls, inl e)
          | inr results =>
              (calls,
               inr {| RAGResponse.results := results;
                      RAGResponse.query := RAGQuery.query request;
                      RAGResponse.total_results :=
                        Z.of_nat (List.length results);
                      RAGResponse.processing_time_ms := elapsed |})
          end
      end
  end.
Proof.
  unfold retrieve_body, encode. simpl.
  destruct (embed m (enhance_query request)) as [e | v]; simpl;
    [reflexivity |].
  destruct (Faiss.search1 ix (normalize_L2 v) (effective_k st request))
    as [e | row]; simpl; [reflexivity |].
  destruct (format_results (metadata st) (Py.enumerate row) [])
    as [e | results]; simpl; reflexivity.
Qed.

End HandlerFacts.

Lemma map_result_nth {A B : Type} (f : A -> result B) (l : list A) :
  forall bs, map_result f l = inr bs ->
    List.length bs = List.length l /\
    forall i a, nth_error l i = Some a ->
      exists b, f a = inr b /\ nth_error bs i = Some b.
Proof.
  induction l as [| x l IH]; intros bs H; simpl in H.
  - inversion H; subst. split; [reflexivity |].
    intros [| i] a Hi; discriminate.
  - destruct (f x) as [e | b] eqn:Ef; [discriminate |].
    destruct (map_result f l) as [e | bs'] eqn:El; [discriminate |].
    inversion H; subst. destruct (IH bs' eq_refl) as [Hlen Hnth].
    split; [simpl; rewrite Hlen; reflexivity |].
    intros [| i] a Hi; simpl in Hi.
    + inversion Hi; subst. exists b. split; [exact Ef | reflexivity].
    + apply Hnth. exact Hi.
Qed.

Lemma add_new_xb (dim : nat) (x : list Vector) (ix : Faiss.IndexFlatIP) :
  Faiss.add (Faiss.new dim) x = inr ix ->
  Faiss.xb ix = x /\ Faiss.d ix = dim.
Proof.
  unfold Faiss.add. destruct x as [| v x]; [discriminate |].
  destruct (forallb _ _); [| discriminate].
  intros H. inversion H. simpl. split; reflexivity.
Qed.

Section InitFacts.

Variable MODEL_NAME : string.
Variable SentenceTransformer : string -> result Embedder.
Variable normalize_L2 : Vector -> Vector.

(** A start-up that records no error leaves an aligned state over the
    corpus it was given. *)
Lemma init_aligned (docs : list Document) (st : State) :
  let st' :=
    initialize_from MODEL_NAME SentenceTransformer normalize_L2 docs st in
  loading_error st = None ->
  loading_error st' = None ->
  exists m ix, aligned normalize_L2 st' m ix /\ documents st' = docs.
Proof.
  intros st' Hnone. subst st'. unfold initialize_from.
  destruct (SentenceTransformer MODEL_NAME) as [e | m]; [discriminate |].
  cbn [documents set_documents set_embedder].
  destruct (map_result (dict_item "content") docs) as [e | texts] eqn:Et;
    [discriminate |].
  destruct (encode m texts) as [e | embs] eqn:Ee; [discriminate |].
  destruct (shape1 embs) as [e | dim] eqn:Es; [discriminate |].
  destruct (Faiss.add (Faiss.new dim) (map normalize_L2 embs))
    as [e | ix] eqn:Ea; [discriminate |].
  intros _. exists m, ix. split; [| reflexivity].
  destruct (add_new_xb _ _ _ Ea) as [Hxb Hd].
  destruct (map_result_nth _ _ _ Et) as [Hlt Hnt].
  destruct (map_result_nth _ _ _ Ee) as [Hle Hne].
  constructor; simpl; try reflexivity.
  - unfold Faiss.ntotal. rewrite Hxb, length_map, Hle, Hlt. reflexivity.
  - intros i doc Hi.
    destruct (Hnt i doc Hi) as [c [Hc Hci]].
    destruct (Hne i c Hci) as [v [Hv Hvi]].
    exists c, v. split; [| split; [exact Hv |]].
    + unfold dict_item in Hc.
      destruct (dict_get "content" doc); [| discriminate].
      inversion Hc. reflexivity.
    + rewrite Hxb. rewrite nth_error_map, Hvi. reflexivity.
Qed.

End InitFacts.

Section AlignedFacts.

Variable normalize_L2 : Vector -> Vector.
Variables (st : State) (m : Embedder) (ix : Faiss.IndexFlatIP).
Hypothesis Haligned : aligned normalize_L2 st m ix.

Lemma aligned_row_ok (q : Vector) (k : Z) (row : list Faiss.Hit) :
  Faiss.search1 ix q k = inr row ->
  row_ok (metadata st) (Py.enumerate row).
Proof.
  intros Hs. unfold Faiss.search1 in Hs.
  destruct (negb _); [discriminate |].
  destruct (k <=? 0); [discriminate |].
  injection Hs as <-.
  destruct (search1_hits ix q k) as [_ [Hin _]].
  apply Forall_forall. intros [i [s idx]] Hi. simpl.
  apply enumerate_from_In in Hi.
  destruct (Hin s idx Hi) as [Hr _].
  rewrite (al_metadata _ _ _ _ Haligned).
  rewrite (al_ntotal _ _ _ _ Haligned) in Hr.
  split; [exact Hr |].
  destruct (nth_error (documents st) (Z.to_nat idx)) as [doc |] eqn:En.
  - destruct (al_vectors _ _ _ _ Haligned _ _ En) as [c [v [Hc _]]].
    exists c. erewrite nth_error_nth; [exact Hc | exact En].
  - apply nth_error_None in En. lia.
Qed.

(** The handler on an aligned state: the only failures left are those of
    the model and of the search, and a successful search is rendered hit
    by hit. *)
Lemma retrieve_aligned (request : RAGQuery.t) (elapsed : Z) :
  retrieve_context normalize_L2 st request elapsed =
  let text := enhance_query request in
  match embed m text with
  | inl e =>
      ([CallEncode [text]],
       inl {| status_code := 500; detail := "Search failed: " ++ str e;
              py_context := Some e |})
  | inr v =>
      let q := normalize_L2 v in
      let k := effective_k st request in
      let calls :=
        [CallEncode [text]; CallNormalizeL2 [v]; CallSearch [q] k] in
      match Faiss.search1 ix q k with
      | inl e =>
          (calls,
           inl {| status_code := 500; detail := "Search failed: " ++ str e;
                  py_context := Some e |})
      | inr row =>
          let results := map (render (documents st)) (Py.enumerate row) in
          (calls,
           inr {| RAGResponse.results := results;
                  RAGResponse.query := RAGQuery.query request;
                  RAGResponse.total_results :=
                    Z.of_nat (List.length results);
                  RAGResponse.processing_time_ms := elapsed |})
      end
  end.
Proof.
  unfold retrieve_context.
  rewrite (al_embedder _ _ _ _ Haligned), (al_index _ _ _ _ Haligned).
  rewrite retrieve_body_unfold. cbv zeta.
  destruct (embed m (enhance_query request)) as [e | v]; [reflexivity |].
  destruct (Faiss.search1 ix (normalize_L2 v) (effective_k st request))
    as [e | row] eqn:Es; [reflexivity |].
  rewrite (format_results_render _ _ (aligned_row_ok _ _ _ Es)).
  rewrite (al_metadata _ _ _ _ Haligned). reflexivity.
Qed.

Lemma search1_ok (q : Vector) (k : Z) :
  List.length q = Faiss.d ix -> 0 < k ->
  Faiss.search1 ix q k =
    inr (firstn (Z.to_nat k) (Faiss.sort (Faiss.score_all q 0 (Faiss.xb ix)))).
Proof.
  intros Hd Hk. unfold Faiss.search1.
  rewrite Hd, Nat.eqb_refl. simpl.
  destruct (k <=? 0) eqn:E; [apply Z.leb_le in E; lia | reflexivity].
Qed.

(** With a positive [k] and a query vector of the index dimension the
    handler answers with exactly [k] results. *)
Lemma retrieve_count (request : RAGQuery.t) (elapsed : Z) (v : Vector) :
  embed m (enhance_query request) = inr v ->
  List.length (normalize_L2 v) = Faiss.d ix ->
  0 < effective_k st request ->
  exists calls response,
    retrieve_context normalize_L2 st request elapsed = (calls, inr response) /\
    Z.of_nat (List.length (RAGResponse.results response))
      = effective_k st request /\
    RAGResponse.total_results response = effective_k st request.
Proof.
  intros Hv Hd Hk.
  rewrite retrieve_aligned. cbv zeta. rewrite Hv.
  rewrite (search1_ok _ _ Hd Hk).
  eexists. eexists. split; [reflexivity |]. simpl.
  assert (Hlen :
    Z.of_nat (List.length
      (map (render (documents st))
         (Py.enumerate
            (firstn (Z.to_nat (effective_k st request))
               (Faiss.sort
                  (Faiss.score_all (normalize_L2 v) 0 (Faiss.xb ix)))))))
    = effective_k st request).
  { rewrite length_map. unfold Py.enumerate.
    rewrite enumerate_from_length.
    destruct (search1_hits ix (normalize_L2 v) (effective_k st request))
      as [Hl _]. cbv zeta in Hl. rewrite Hl.
    rewrite (al_ntotal _ _ _ _ Haligned).
    unfold effective_k in *. lia. }
  split; exact Hlen.
Qed.

End AlignedFacts.

(** * Query enhancement *)

Lemma append_assoc (a b c : string) : (a ++ b) ++ c = a ++ b ++ c.
Proof.
  induction a as [| x a IH]; simpl.
  - reflexivity.
  - rewrite IH. reflexivity.
Qed.

Lemma append_empty_r (a : string) : a ++ "" = a.
Proof.
  induction a as [| x a IH]; simpl.
  - reflexivity.
  - rewrite IH. reflexivity.
Qed.

Lemma enhance_query_truthy (request : RAGQuery.t) :
  enhance_query request = truthy_enhanced_query request.
Proof.
  unfold enhance_query, truthy_enhanced_query, Py.truthy_str.
  destruct (RAGQuery.country request) as [c |];
    destruct (RAGQuery.category request) as [g |];
    try destruct (String.eqb c ""); try destruct (String.eqb g "");
    try destruct (String.eqb g "general"); simpl;
    rewrite ?append_assoc, ?append_empty_r; reflexivity.
Qed.

Lemma encoded_texts_body (normalize_L2 : Vector -> Vector) (m : Embedder)
    (ix : Faiss.IndexFlatIP) (st : State) (request : RAGQuery.t)
    (elapsed : Z) :
  encoded_texts (fst (retrieve_body normalize_L2 m ix st request elapsed))
  = [[enhance_query request]].
Proof.
  rewrite retrieve_body_unfold. cbv zeta.
  destruct (embed m (enhance_query request)) as [e | v]; [reflexivity |].
  destruct (Faiss.search1 _ _ _) as [e | row]; [reflexivity |].
  destruct (format_results _ _ _); reflexivity.
Qed.

(** C3 (as amended).  On every call that reaches the model, the handler makes
    exactly one [encode] call, on a single string: the original query,
    followed by a space and the country when the country is given and not
    empty, followed by a space and the category with every underscore replaced
    by a space when the category is given, not empty and not ["general"].  For
    the query "visa requirements", country "Portugal" and category
    "cost_of_living" that string is
    "visa requirements Portugal cost of living". *)
Theorem enhanced_query_vectorized (normalize_L2 : Vector -> Vector)
    (st : State) (m : Embedder) (ix : Faiss.IndexFlatIP)
    (request : RAGQuery.t) (elapsed : Z) :
  embedder st = Some m ->
  index st = Some ix ->
  encoded_texts (fst (retrieve_context normalize_L2 st request elapsed))
    = [[truthy_enhanced_query request]] /\
  encoded_texts (fst (retrieve_context normalize_L2 st scenario_request elapsed))
    = [["visa requirements Portugal cost of living"]].
Proof.
  intros Hm Hix.
  assert (H : forall r,
    encoded_texts (fst (retrieve_context normalize_L2 st r elapsed))
    = [[enhance_query r]]).
  { intros r. unfold retrieve_context. rewrite Hm, Hix.
    rewrite <- (encoded_texts_body normalize_L2 m ix st r elapsed).
    destruct (retrieve_body normalize_L2 m ix st r elapsed) as [calls [e | resp]];
      reflexivity. }
  split.
  - rewrite H, enhance_query_truthy. reflexivity.
  - rewrite H. reflexivity.
Qed.

Lemma started_aligned :
  aligned TestBackend.normalize_L2 TestBackend.started TestBackend.model
    TestBackend.started_index.
Proof.
  destruct (init_aligned TestBackend.MODEL_NAME TestBackend.load
              TestBackend.normalize_L2 get_emigration_documents initial_state)
    as [m [ix [Hal _]]].
  - reflexivity.
  - vm_compute. reflexivity.
  - fold (initialize_simple_rag TestBackend.MODEL_NAME TestBackend.load
            TestBackend.normalize_L2 initial_state) in Hal.
    fold TestBackend.started in Hal.
    assert (Hm : Some m = Some TestBackend.model).
    { rewrite <- (al_embedder _ _ _ _ Hal). reflexivity. }
    assert (Hix : Some ix = Some TestBackend.started_index).
    { rewrite <- (al_index _ _ _ _ Hal). vm_compute. reflexivity. }
    injection Hm as ->. injection Hix as ->. exact Hal.
Qed.

Lemma enhanced_query_vectorized_witness :
  embedder TestBackend.started = Some TestBackend.model /\
  index TestBackend.started = Some TestBackend.started_index /\
  encoded_texts
    (fst (retrieve_context TestBackend.normalize_L2 TestBackend.started
            scenario_request 7))
  = [["visa requirements Portugal cost of living"]].
Proof.
  assert (Hm : embedder TestBackend.started = Some TestBackend.model)
    by reflexivity.
  assert (Hix : index TestBackend.started = Some TestBackend.started_index)
    by (vm_compute; reflexivity).
  split; [exact Hm |]. split; [exact Hix |].
  exact (proj2 (enhanced_query_vectorized TestBackend.normalize_L2
                  TestBackend.started TestBackend.model
                  TestBackend.started_index scenario_request 7 Hm Hix)).
Defined.

(** C3, as stated, fails on a request whose country is the empty string: the
    country is given, so the claimed text ends in a space, but the handler
    vectorizes the bare query. *)
Lemma enhanced_query_counterexample :
  let request :=
    {| RAGQuery.query := "visa requirements";
       RAGQuery.country := Some "";
       RAGQuery.category := Some "general";
       RAGQuery.max_results := Some 5 |} in
  specified_enhanced_query request = "visa requirements " /\
  encoded_texts
    (fst (retrieve_context TestBackend.normalize_L2 TestBackend.started
            request 7))
  = [["visa requirements"]] /\
  encoded_texts
    (fst (retrieve_context TestBackend.normalize_L2 TestBackend.started
            request 7))
  <> [[specified_enhanced_query request]].
Proof.
  cbv zeta. split; [reflexivity |].
  split; [vm_compute; reflexivity |].
  vm_compute. discriminate.
Qed.

(** * Readiness *)

(** C6.  Whenever the model handle or the index is absent, the handler fails
    with status 503 (service unavailable), reporting the recorded loading
    error, and makes no call to the libraries: nothing is vectorized and no
    search is attempted. *)
Theorem retrieve_not_ready (normalize_L2 : Vector -> Vector) (st : State)
    (request : RAGQuery.t) (elapsed : Z) :
  embedder st = None \/ index st = None ->
  retrieve_context normalize_L2 st request elapsed =
    ([],
     inl {| status_code := 503;
            detail := "Simple RAG not initialized: "
                      ++ Py.format_opt (loading_error st);
            py_context := None |}) /\
  search_calls (fst (retrieve_context normalize_L2 st request elapsed)) = O.
Proof.
  intros H.
  assert (E : retrieve_context normalize_L2 st request elapsed =
    ([],
     inl {| status_code := 503;
            detail := "Simple RAG not initialized: "
                      ++ Py.format_opt (loading_error st);
            py_context := None |})).
  { unfold retrieve_context.
    destruct H as [H | H]; rewrite H; [reflexivity |].
    destruct (embedder st); reflexivity. }
  split; [exact E | rewrite E; reflexivity].
Qed.

Lemma retrieve_not_ready_witness :
  (embedder TestBackend.half_started = None \/
   index TestBackend.half_started = None) /\
  retrieve_context TestBackend.normalize_L2 TestBackend.half_started
    scenario_request 7 =
    ([],
     inl {| status_code := 503;
            detail := "Simple RAG not initialized: out of memory";
            py_context := None |}).
Proof.
  assert (H : embedder TestBackend.half_started = None \/
              index TestBackend.half_started = None)
    by (right; reflexivity).
  split; [exact H |].
  exact (proj1 (retrieve_not_ready TestBackend.normalize_L2
                  TestBackend.half_started scenario_request 7 H)).
Defined.

(** * The response *)

(** C10.  Every successful call echoes the caller's original query string in
    the [query] field of the response, whatever was appended to it for the
    embedding. *)
Theorem response_echoes_query (normalize_L2 : Vector -> Vector) (st : State)
    (request : RAGQuery.t) (elapsed : Z) (calls : list Call)
    (response : RAGResponse.t) :
  retrieve_context normalize_L2 st request elapsed = (calls, inr response) ->
  RAGResponse.query response = RAGQuery.query request.
Proof.
  unfold retrieve_context.
  destruct (embedder st) as [m |]; [| discriminate].
  destruct (index st) as [ix |]; [| discriminate].
  rewrite retrieve_body_unfold. cbv zeta.
  destruct (embed m (enhance_query request)) as [e | v]; [discriminate |].
  destruct (Faiss.search1 _ _ _) as [e | row]; [discriminate |].
  destruct (format_results _ _ _) as [e | results]; [discriminate |].
  intros H. injection H as _ <-. reflexivity.
Qed.

Lemma response_echoes_query_witness :
  exists calls response,
    retrieve_context TestBackend.normalize_L2 TestBackend.started
      scenario_request 7 = (calls, inr response) /\
    encoded_texts calls = [["visa requirements Portugal cost of living"]] /\
    RAGResponse.query response = "visa requirements".
Proof.
  destruct (retrieve_context TestBackend.normalize_L2 TestBackend.started
              scenario_request 7) as [calls [http | response]] eqn:E.
  - vm_compute in E. discriminate.
  - exists calls, response. split; [reflexivity |]. split.
    + vm_compute in E. injection E as <- _. reflexivity.
    + exact (response_echoes_query _ _ _ _ _ _ E).
Defined.

(** * The number of results *)

Lemma effective_k_positive (st : State) (request : RAGQuery.t) (n : Z) :
  RAGQuery.max_results request = Some n -> 0 < n ->
  effective_k st request = Z.min n (Z.of_nat (List.length (documents st))).
Proof.
  intros Hn Hpos. unfold effective_k. rewrite Hn.
  destruct n; try lia. reflexivity.
Qed.

(** C4.  On a started engine with a non-empty corpus of [N] documents, a call
    with a positive [max_results] whose enhanced query the model embeds into
    a vector of the index dimension succeeds with exactly
    [min max_results N] results, and so with exactly [N] results when
    [max_results] exceeds [N]. *)
Theorem retrieve_returns_min_k (normalize_L2 : Vector -> Vector) (st : State)
    (m : Embedder) (ix : Faiss.IndexFlatIP) (request : RAGQuery.t)
    (elapsed : Z) (n : Z) (v : Vector) :
  aligned normalize_L2 st m ix ->
  documents st <> [] ->
  RAGQuery.max_results request = Some n ->
  0 < n ->
  embed m (enhance_query request) = inr v ->
  List.length (normalize_L2 v) = Faiss.d ix ->
  let N := Z.of_nat (List.length (documents st)) in
  exists calls response,
    retrieve_context normalize_L2 st request elapsed = (calls, inr response) /\
    Z.of_nat (List.length (RAGResponse.results response)) = Z.min n N /\
    RAGResponse.total_results response = Z.min n N /\
    (N < n -> Z.of_nat (List.length (RAGResponse.results response)) = N).
Proof.
  intros Hal Hne Hn Hpos Hv Hd N.
  assert (Hk : effective_k st request = Z.min n N)
    by (apply effective_k_positive; assumption).
  assert (HN : 0 < N).
  { subst N. destruct (documents st); [contradiction | simpl; lia]. }
  destruct (retrieve_count normalize_L2 st m ix Hal request elapsed v Hv Hd)
    as [calls [response [Hr [Hlen Htot]]]]; [lia |].
  exists calls, response. rewrite Hk in Hlen, Htot.
  split; [exact Hr |]. split; [exact Hlen |]. split; [exact Htot |].
  intros Hlt. rewrite Hlen. lia.
Qed.

Lemma retrieve_returns_min_k_witness :
  let request := RAGQuery.with_max_results scenario_request (Some 50) in
  exists calls response,
    retrieve_context TestBackend.normalize_L2 TestBackend.started request 7
      = (calls, inr response) /\
    Z.of_nat (List.length (RAGResponse.results response)) = 8 /\
    RAGResponse.total_results response = 8.
Proof.
  cbv zeta.
  destruct (retrieve_returns_min_k TestBackend.normalize_L2
              TestBackend.started TestBackend.model TestBackend.started_index
              (RAGQuery.with_max_results scenario_request (Some 50)) 7 50
              (TestBackend.letters "visa requirements Portugal cost of living")
              started_aligned)
    as [calls [response [Hr [Hlen [Htot _]]]]].
  - vm_compute. discriminate.
  - reflexivity.
  - lia.
  - vm_compute. reflexivity.
  - vm_compute. reflexivity.
  - exists calls, response. split; [exact Hr |].
    split; [exact Hlen | exact Htot].
Defined.

(** C9.  A request with [max_results = 0], and likewise one with
    [max_results] null, is handled exactly as the same request with
    [max_results = 5]: it is not rejected, and on a started engine with a
    non-empty corpus of [N] documents it returns [min 5 N] results, which is
    at least one. *)
Theorem zero_max_results_is_default (normalize_L2 : Vector -> Vector)
    (st : State) (request : RAGQuery.t) (elapsed : Z) :
  retrieve_context normalize_L2 st
    (RAGQuery.with_max_results request (Some 0)) elapsed
  = retrieve_context normalize_L2 st
      (RAGQuery.with_max_results request (Some 5)) elapsed /\
  retrieve_context normalize_L2 st
    (RAGQuery.with_max_results request None) elapsed
  = retrieve_context normalize_L2 st
      (RAGQuery.with_max_results request (Some 5)) elapsed /\
  (forall m ix v,
     aligned normalize_L2 st m ix ->
     documents st <> [] ->
     embed m (enhance_query request) = inr v ->
     List.length (normalize_L2 v) = Faiss.d ix ->
     exists calls response,
       retrieve_context normalize_L2 st
         (RAGQuery.with_max_results request (Some 0)) elapsed
       = (calls, inr response) /\
       Z.of_nat (List.length (RAGResponse.results response))
       = Z.min 5 (Z.of_nat (List.length (documents st))) /\
       0 < Z.of_nat (List.length (RAGResponse.results response))).
Proof.
  split; [reflexivity |]. split; [reflexivity |].
  intros m ix v Hal Hne Hv Hd.
  assert (HN : 0 < Z.of_nat (List.length (documents st))).
  { destruct (documents st); [contradiction | simpl; lia]. }
  destruct (retrieve_count normalize_L2 st m ix Hal
              (RAGQuery.with_max_results request (Some 0)) elapsed v Hv Hd)
    as [calls [response [Hr [Hlen _]]]].
  - unfold effective_k. simpl. lia.
  - exists calls, response. split; [exact Hr |].
    unfold effective_k in Hlen. simpl in Hlen. rewrite Hlen. lia.
Qed.

Lemma zero_max_results_is_default_witness :
  exists calls response,
    retrieve_context TestBackend.normalize_L2 TestBackend.started
      (RAGQuery.with_max_results scenario_request (Some 0)) 7
    = (calls, inr response) /\
    Z.of_nat (List.length (RAGResponse.results response)) = 5.
Proof.
  destruct (proj2 (proj2 (zero_max_results_is_default
              TestBackend.normalize_L2 TestBackend.started scenario_request 7))
              TestBackend.model TestBackend.started_index
              (TestBackend.letters "visa requirements Portugal cost of living")
              started_aligned)
    as [calls [response [Hr [Hlen _]]]].
  - vm_compute. discriminate.
  - vm_compute. reflexivity.
  - vm_compute. reflexivity.
  - exists calls, response. split; [exact Hr | exact Hlen].
Defined.

(** * Calls that cannot be served *)

Lemma effective_k_nonpositive (st : State) (request : RAGQuery.t) :
  effective_k st request <= 0 <->
  (exists n, RAGQuery.max_results request = Some n /\ n < 0) \/
  documents st = [].
Proof.
  unfold effective_k. split.
  - intros H.
    destruct (documents st) as [| doc docs]; [right; reflexivity |].
    left. destruct (RAGQuery.max_results request) as [n |];
      [| cbn [Py.int_or List.length] in H; lia].
    exists n. split; [reflexivity |].
    destruct n; cbn [Py.int_or List.length] in H; lia.
  - intros [[n [Hn Hneg]] | Hd].
    + rewrite Hn. destruct n; simpl; lia.
    + rewrite Hd. simpl. lia.
Qed.

(** With a model and an index in place and [k <= 0] the handler never
    answers: the model fails, or the search rejects the query or [k]. *)
Lemma retrieve_nonpositive_k (normalize_L2 : Vector -> Vector) (st : State)
    (m : Embedder) (ix : Faiss.IndexFlatIP) (request : RAGQuery.t)
    (elapsed : Z) :
  embedder st = Some m ->
  index st = Some ix ->
  effective_k st request <= 0 ->
  exists calls e,
    retrieve_context normalize_L2 st request elapsed =
      (calls,
       inl {| status_code := 500; detail := "Search failed: " ++ str e;
              py_context := Some e |}) /\
    (forall v, embed m (enhance_query request) = inr v ->
       List.length (normalize_L2 v) = Faiss.d ix ->
       e = InvalidKError /\
       calls = [CallEncode [enhance_query request]; CallNormalizeL2 [v];
                CallSearch [normalize_L2 v] (effective_k st request)]).
Proof.
  intros Hm Hix Hk. unfold retrieve_context. rewrite Hm, Hix.
  rewrite retrieve_body_unfold. cbv zeta.
  destruct (embed m (enhance_query request)) as [e | v].
  - eexists. exists e. split; [reflexivity |]. intros v Hv. discriminate.
  - unfold Faiss.search1.
    destruct (Nat.eqb (List.length (normalize_L2 v)) (Faiss.d ix)) eqn:Ed;
      simpl.
    + replace (effective_k st request <=? 0) with true
        by (symmetry; apply Z.leb_le; exact Hk).
      eexists. exists InvalidKError. split; [reflexivity |].
      intros w Hw _. injection Hw as <-. split; reflexivity.
    + eexists. exists DimensionMismatchError. split; [reflexivity |].
      intros w Hw Hd. injection Hw as <-.
      apply Nat.eqb_neq in Ed. contradiction.
Qed.

(** C5.  With a model and an index in place, every call whose [k] is not
    positive fails, with status 500 and never with a response; once the
    enhanced query has been embedded into a vector of the index dimension,
    the failure is the [InvalidKError] of the search, reported as
    "Search failed: ...".  [k <= 0] arises exactly from a negative
    [max_results], such as -1, or from an empty corpus. *)
Theorem nonpositive_k_fails (normalize_L2 : Vector -> Vector) (st : State)
    (m : Embedder) (ix : Faiss.IndexFlatIP) (request : RAGQuery.t)
    (elapsed : Z) :
  embedder st = Some m ->
  index st = Some ix ->
  effective_k st request <= 0 ->
  exists calls e,
    retrieve_context normalize_L2 st request elapsed =
      (calls,
       inl {| status_code := 500; detail := "Search failed: " ++ str e;
              py_context := Some e |}) /\
    (forall v, embed m (enhance_query request) = inr v ->
       List.length (normalize_L2 v) = Faiss.d ix ->
       e = InvalidKError /\
       calls = [CallEncode [enhance_query request]; CallNormalizeL2 [v];
                CallSearch [normalize_L2 v] (effective_k st request)]).
Proof.
  apply retrieve_nonpositive_k.
Qed.

Lemma nonpositive_k_fails_witness :
  let request := RAGQuery.with_max_results scenario_request (Some (-1)) in
  effective_k TestBackend.started request = -1 /\
  exists calls,
    retrieve_context TestBackend.normalize_L2 TestBackend.started request 7 =
      (calls,
       inl {| status_code := 500;
              detail := "Search failed: k must be positive";
              py_context := Some InvalidKError |}).
Proof.
  cbv zeta. split; [reflexivity |].
  destruct (nonpositive_k_fails TestBackend.normalize_L2 TestBackend.started
              TestBackend.model TestBackend.started_index
              (RAGQuery.with_max_results scenario_request (Some (-1))) 7)
    as [calls [e [Hr He]]].
  - reflexivity.
  - vm_compute. reflexivity.
  - vm_compute. discriminate.
  - destruct (He (TestBackend.letters
                    "visa requirements Portugal cost of living"))
      as [-> _].
    + vm_compute. reflexivity.
    + vm_compute. reflexivity.
    + exists calls. exact Hr.
Defined.

(** C2 (as amended).  On an empty corpus the handler always fails and never
    returns a result list: with status 503 and no call to the libraries when
    the model or the index is absent, with status 500 otherwise; in the
    latter case, once the enhanced query has been embedded into a vector of
    the index dimension, the failure is the search rejecting [k = 0]. *)
Theorem empty_corpus_fails (normalize_L2 : Vector -> Vector) (st : State)
    (request : RAGQuery.t) (elapsed : Z) :
  documents st = [] ->
  exists calls http,
    retrieve_context normalize_L2 st request elapsed = (calls, inl http) /\
    (embedder st = None \/ index st = None ->
       status_code http = 503 /\ calls = [] /\ py_context http = None) /\
    (forall m ix, embedder st = Some m -> index st = Some ix ->
       status_code http = 500 /\
       forall v, embed m (enhance_query request) = inr v ->
         List.length (normalize_L2 v) = Faiss.d ix ->
         py_context http = Some InvalidKError).
Proof.
  intros Hd.
  destruct (embedder st) as [m |] eqn:Em;
    [destruct (index st) as [ix |] eqn:Eix |].
  - destruct (retrieve_nonpositive_k normalize_L2 st m ix request elapsed
                Em Eix) as [calls [e [Hr He]]].
    { apply effective_k_nonpositive. right. exact Hd. }
    exists calls. eexists. split; [exact Hr |]. split.
    + intros [H | H]; discriminate.
    + intros m' ix' Hm' Hix'. injection Hm' as <-. injection Hix' as <-.
      simpl. split; [reflexivity |].
      intros v Hv Hl. destruct (He v Hv Hl) as [-> _]. reflexivity.
  - unfold retrieve_context. rewrite Em, Eix.
    eexists. eexists. split; [reflexivity |]. simpl. split.
    + intros _. repeat split.
    + intros m' ix' _ H. discriminate.
  - unfold retrieve_context. rewrite Em.
    eexists. eexists. split; [reflexivity |]. simpl. split.
    + intros _. repeat split.
    + intros m' ix' H. discriminate.
Qed.

Lemma empty_corpus_fails_witness :
  documents TestBackend.not_started = [] /\
  exists calls http,
    retrieve_context TestBackend.normalize_L2 TestBackend.not_started
      scenario_request 7 = (calls, inl http) /\
    status_code http = 503.
Proof.
  assert (Hd : documents TestBackend.not_started = []) by reflexivity.
  split; [exact Hd |].
  destruct (empty_corpus_fails TestBackend.normalize_L2
              TestBackend.not_started scenario_request 7 Hd)
    as [calls [http [Hr [H503 _]]]].
  exists calls, http. split; [exact Hr |].
  apply H503. left. reflexivity.
Defined.

(** C2, as stated, fails: after a start-up whose model did not load the
    corpus is empty and the handler fails with the 503 of an engine that is
    not ready; with a model and an index over an empty corpus the failure is
    the search rejecting [k = 0].  Neither is an [EmptyCorpusError]. *)
Lemma empty_corpus_counterexample :
  documents TestBackend.not_started = [] /\
  retrieve_context TestBackend.normalize_L2 TestBackend.not_started
    scenario_request 7 =
    ([],
     inl {| status_code := 503;
            detail := "Simple RAG not initialized: model not found";
            py_context := None |}) /\
  snd (retrieve_context TestBackend.normalize_L2 TestBackend.empty_ready
         scenario_request 7) =
    inl {| status_code := 500;
           detail := "Search failed: k must be positive";
           py_context := Some InvalidKError |} /\
  ~ empty_corpus_claim TestBackend.normalize_L2.
Proof.
  split; [reflexivity |]. split; [vm_compute; reflexivity |].
  split; [vm_compute; reflexivity |].
  intros H.
  destruct (H TestBackend.not_started scenario_request 7 eq_refl)
    as [calls [http [Hr Hc]]].
  vm_compute in Hr. injection Hr as _ <-. discriminate.
Qed.

(** * Start-up *)

(** C7 (as amended).  When start-up fails, the error is recorded in
    [loading_error] and the metadata list is left untouched, but nothing is
    rolled back: a model that fails to load leaves the other globals as they
    were, while any later failure leaves the model handle and the corpus
    assigned, with the index either still unassigned or newly created and
    empty. *)
Theorem failed_initialization_state (MODEL_NAME : string)
    (SentenceTransformer : string -> result Embedder)
    (normalize_L2 : Vector -> Vector) (docs : list Document) (st : State) :
  let st' :=
    initialize_from MODEL_NAME SentenceTransformer normalize_L2 docs st in
  loading_error st = None ->
  loading_error st' <> None ->
  exists e,
    loading_error st' = Some (str e) /\
    metadata st' = metadata st /\
    ((SentenceTransformer MODEL_NAME = inl e /\
      embedder st' = embedder st /\ index st' = index st /\
      documents st' = documents st)
     \/
     (exists m, SentenceTransformer MODEL_NAME = inr m /\
        embedder st' = Some m /\ documents st' = docs /\
        (index st' = index st \/
         exists dimension, index st' = Some (Faiss.new dimension)))).
Proof.
  intros st' Hnone. subst st'. unfold initialize_from.
  destruct (SentenceTransformer MODEL_NAME) as [e | m].
  { intros _. exists e. simpl. split; [reflexivity |].
    split; [reflexivity |]. left. repeat split. }
  cbn [documents set_documents set_embedder].
  destruct (map_result (dict_item "content") docs) as [e | texts].
  { intros _. exists e. simpl. split; [reflexivity |].
    split; [reflexivity |]. right. exists m. repeat split. left. reflexivity. }
  destruct (encode m texts) as [e | embs].
  { intros _. exists e. simpl. split; [reflexivity |].
    split; [reflexivity |]. right. exists m. repeat split. left. reflexivity. }
  destruct (shape1 embs) as [e | dimension].
  { intros _. exists e. simpl. split; [reflexivity |].
    split; [reflexivity |]. right. exists m. repeat split. left. reflexivity. }
  destruct (Faiss.add (Faiss.new dimension) (map normalize_L2 embs))
    as [e | ix].
  { intros _. exists e. simpl. split; [reflexivity |].
    split; [reflexivity |]. right. exists m. repeat split.
    right. exists dimension. reflexivity. }
  simpl. intros H. rewrite Hnone in H. contradiction.
Qed.

Lemma failed_initialization_state_witness :
  loading_error TestBackend.half_started = Some "out of memory" /\
  metadata TestBackend.half_started = [] /\
  embedder TestBackend.half_started = Some TestBackend.broken_model /\
  documents TestBackend.half_started = get_emigration_documents.
Proof.
  destruct (failed_initialization_state TestBackend.MODEL_NAME
              TestBackend.load_broken TestBackend.normalize_L2
              get_emigration_documents initial_state)
    as [e [He [Hmd [[Hload _] | [m [Hload [Hm [Hdocs _]]]]]]]].
  - reflexivity.
  - vm_compute. discriminate.
  - discriminate.
  - split; [reflexivity |]. split; [exact Hmd |].
    split; [| exact Hdocs].
    injection Hload as <-. exact Hm.
Defined.

(** C7, as stated, fails: when the model loads but cannot embed the corpus,
    start-up records the error and leaves the model handle and the eight
    documents assigned while the index is absent, a state that is neither
    fully initialized nor the pre-init one, and that the health endpoint
    reports. *)
Lemma atomic_initialization_counterexample :
  loading_error TestBackend.half_started = Some "out of memory" /\
  embedder TestBackend.half_started = Some TestBackend.broken_model /\
  List.length (documents TestBackend.half_started) = 8%nat /\
  index TestBackend.half_started = None /\
  health_check TestBackend.MODEL_NAME TestBackend.half_started =
    {| status := "unhealthy";
       message := "Initialization failed: out of memory";
       model := "all-MiniLM-L6-v2";
       documents_indexed := 8 |} /\
  ~ atomic_initialization_claim TestBackend.MODEL_NAME
      TestBackend.load_broken TestBackend.normalize_L2.
Proof.
  split; [reflexivity |]. split; [reflexivity |].
  split; [reflexivity |]. split; [reflexivity |].
  split; [reflexivity |].
  unfold atomic_initialization_claim. fold TestBackend.half_started.
  intros [[H _] | [_ [H _]]]; vm_compute in H; discriminate.
Qed.

(** * Index alignment *)

(** On an aligned state every result of a successful call is rendered from
    the document stored at its [document_index]. *)
Lemma retrieve_results_from_documents (normalize_L2 : Vector -> Vector)
    (st : State) (m : Embedder) (ix : Faiss.IndexFlatIP)
    (request : RAGQuery.t) (elapsed : Z) (calls : list Call)
    (response : RAGResponse.t) :
  aligned normalize_L2 st m ix ->
  retrieve_context normalize_L2 st request elapsed = (calls, inr response) ->
  Forall (fun r => exists doc, result_from (documents st) r doc)
         (RAGResponse.results response).
Proof.
  intros Hal. rewrite (retrieve_aligned normalize_L2 st m ix Hal). cbv zeta.
  destruct (embed m (enhance_query request)) as [e | v]; [discriminate |].
  destruct (Faiss.search1 ix (normalize_L2 v) (effective_k st request))
    as [e | row] eqn:Es; [discriminate |].
  intros H. injection H as _ <-. simpl.
  pose proof (aligned_row_ok normalize_L2 st m ix Hal _ _ _ Es) as Hok.
  rewrite (al_metadata _ _ _ _ Hal) in Hok.
  unfold row_ok in Hok. rewrite Forall_forall in Hok.
  apply Forall_forall. intros r Hr.
  apply in_map_iff in Hr. destruct Hr as [[i [s idx]] [<- Hin]].
  destruct (Hok _ Hin) as [Hrange [c Hc]]. simpl in Hrange, Hc.
  exists (nth (Z.to_nat idx) (documents st) []).
  unfold result_from, render. simpl.
  split; [lia |]. split.
  - apply nth_error_nth'. lia.
  - split; [| repeat split].
    unfold dict_get_default. rewrite Hc. reflexivity.
Qed.

Lemma render_hits (md : list Document) (row : list Faiss.Hit) (i : Z) :
  map (fun r => (RAGResult.relevance_score r,
                 document_index (RAGResult.metadata r)))
      (map (render md) (Py.enumerate_from i row)) = row.
Proof.
  revert i. induction row as [| [s idx] row IH]; intros i; simpl.
  - reflexivity.
  - rewrite IH. reflexivity.
Qed.

(** On an aligned state the results of a successful call list the hits of
    the search in the order the search returned them: same scores, same
    labels. *)
Lemma retrieve_results_in_search_order (normalize_L2 : Vector -> Vector)
    (st : State) (m : Embedder) (ix : Faiss.IndexFlatIP)
    (request : RAGQuery.t) (elapsed : Z) (calls : list Call)
    (response : RAGResponse.t) :
  aligned normalize_L2 st m ix ->
  retrieve_context normalize_L2 st request elapsed = (calls, inr response) ->
  exists v row,
    embed m (enhance_query request) = inr v /\
    Faiss.search1 ix (normalize_L2 v) (effective_k st request) = inr row /\
    map (fun r => (RAGResult.relevance_score r,
                   document_index (RAGResult.metadata r)))
        (RAGResponse.results response) = row.
Proof.
  intros Hal. rewrite (retrieve_aligned normalize_L2 st m ix Hal). cbv zeta.
  destruct (embed m (enhance_query request)) as [e | v]; [discriminate |].
  destruct (Faiss.search1 ix (normalize_L2 v) (effective_k st request))
    as [e | row] eqn:Es; [discriminate |].
  intros H. injection H as _ <-. simpl.
  exists v, row. split; [reflexivity |]. split; [exact Es |].
  apply render_hits.
Qed.

(** C8.  After a start-up that records no error, over a corpus whose
    documents all name their source (as those of [get_emigration_documents]
    do): a model and an index are in place; the corpus, the metadata list
    and the index have the same length; position [i] of the metadata list is
    document [i], and position [i] of the index is the normalised embedding
    of the content of document [i]; and every result of every successful
    call takes its content, source, country and category from the document
    at its [document_index]. *)
Theorem build_aligns_index (MODEL_NAME : string)
    (SentenceTransformer : string -> result Embedder)
    (normalize_L2 : Vector -> Vector) (docs : list Document) (st : State) :
  let st' :=
    initialize_from MODEL_NAME SentenceTransformer normalize_L2 docs st in
  Forall (fun doc => dict_get "source" doc <> None) docs ->
  loading_error st = None ->
  loading_error st' = None ->
  exists m ix,
    embedder st' = Some m /\ index st' = Some ix /\
    documents st' = docs /\ metadata st' = docs /\
    Faiss.ntotal ix = List.length docs /\
    (forall i doc, nth_error docs i = Some doc ->
       exists c v, dict_get "content" doc = Some c /\
                   embed m c = inr v /\
                   nth_error (Faiss.xb ix) i = Some (normalize_L2 v)) /\
    (forall request elapsed calls response,
       retrieve_context normalize_L2 st' request elapsed
         = (calls, inr response) ->
       Forall (fun r =>
                 exists doc,
                   result_from docs r doc /\
                   dict_get "source" doc = Some (RAGResult.source r))
              (RAGResponse.results response)).
Proof.
  intros st' Hsrc Hnone Hok. subst st'.
  destruct (init_aligned MODEL_NAME SentenceTransformer normalize_L2 docs st
              Hnone Hok) as [m [ix [Hal Hdocs]]].
  exists m, ix.
  split; [exact (al_embedder _ _ _ _ Hal) |].
  split; [exact (al_index _ _ _ _ Hal) |].
  split; [exact Hdocs |].
  split; [rewrite (al_metadata _ _ _ _ Hal); exact Hdocs |].
  split; [rewrite (al_ntotal _ _ _ _ Hal), Hdocs; reflexivity |].
  split.
  - intros i doc Hi. apply (al_vectors _ _ _ _ Hal). rewrite Hdocs. exact Hi.
  - intros request elapsed calls response Hr.
    pose proof (retrieve_results_from_documents _ _ _ _ _ _ _ _ Hal Hr) as H.
    rewrite Hdocs in H.
    eapply Forall_impl; [| exact H].
    intros r [doc Hfrom]. exists doc. split; [exact Hfrom |].
    destruct Hfrom as [_ [Hnth [_ [Hs _]]]].
    rewrite Forall_forall in Hsrc.
    specialize (Hsrc doc (nth_error_In _ _ Hnth)).
    rewrite Hs. unfold dict_get_default.
    destruct (dict_get "source" doc); [reflexivity | contradiction].
Qed.

Lemma build_aligns_index_witness :
  Forall (fun doc => dict_get "source" doc <> None) get_emigration_documents /\
  loading_error TestBackend.started = None /\
  index TestBackend.started = Some TestBackend.started_index /\
  Faiss.ntotal TestBackend.started_index = 8%nat /\
  metadata TestBackend.started = get_emigration_documents.
Proof.
  assert (Hsrc : Forall (fun doc => dict_get "source" doc <> None)
                   get_emigration_documents).
  { repeat constructor; discriminate. }
  assert (Hok : loading_error TestBackend.started = None)
    by (vm_compute; reflexivity).
  destruct (build_aligns_index TestBackend.MODEL_NAME TestBackend.load
              TestBackend.normalize_L2 get_emigration_documents initial_state
              Hsrc eq_refl Hok)
    as [m [ix [_ [Hix [_ [Hmd [Hn _]]]]]]].
  split; [exact Hsrc |]. split; [exact Hok |].
  assert (E : Some ix = Some TestBackend.started_index).
  { rewrite <- Hix. vm_compute. reflexivity. }
  injection E as ->.
  split; [exact Hix |]. split; [exact Hn | exact Hmd].
Defined.

(** * The routes *)

(** X1.  The route runs the handler only for the configured key: with any
    other bearer token the answer is 401 "Invalid API key" and no library is
    called, whatever the globals and the request are (in particular before
    the 503 of an engine that is not ready); with the configured key the
    answer is that of the handler. *)
Theorem route_requires_api_key (API_KEY : string)
    (normalize_L2 : Vector -> Vector) (st : State) (credentials : string)
    (request : RAGQuery.t) (elapsed : Z) :
  (credentials <> API_KEY ->
   retrieve_context_route API_KEY normalize_L2 st credentials request elapsed
   = ([], inl {| status_code := 401; detail := "Invalid API key";
                 py_context := None |})) /\
  (credentials = API_KEY ->
   retrieve_context_route API_KEY normalize_L2 st credentials request elapsed
   = retrieve_context normalize_L2 st request elapsed).
Proof.
  unfold retrieve_context_route, verify_api_key. split; intros H.
  - apply String.eqb_neq in H. rewrite H. reflexivity.
  - apply String.eqb_eq in H. rewrite H. reflexivity.
Qed.

Lemma route_requires_api_key_witness :
  "guess" <> "secret" /\
  retrieve_context_route "secret" TestBackend.normalize_L2
    TestBackend.not_started "guess" scenario_request 7
  = ([], inl {| status_code := 401; detail := "Invalid API key";
                py_context := None |}) /\
  fst (retrieve_context_route "secret" TestBackend.normalize_L2
         TestBackend.started "secret" scenario_request 7)
  = fst (retrieve_context TestBackend.normalize_L2 TestBackend.started
           scenario_request 7).
Proof.
  assert (Hne : "guess" <> "secret") by discriminate.
  split; [exact Hne |]. split.
  - exact (proj1 (route_requires_api_key "secret" TestBackend.normalize_L2
                    TestBackend.not_started "guess" scenario_request 7) Hne).
  - rewrite (proj2 (route_requires_api_key "secret" TestBackend.normalize_L2
                      TestBackend.started "secret" scenario_request 7)
               eq_refl).
    reflexivity.
Defined.

(** X2.  The two status endpoints and the handler's gate agree on every
    state: the health endpoint says "healthy" exactly when the root endpoint
    does, and exactly when the handler does not answer 503. *)
Theorem status_endpoints_agree (MODEL_NAME : string)
    (normalize_L2 : Vector -> Vector) (st : State) (request : RAGQuery.t)
    (elapsed : Z) :
  status (health_check MODEL_NAME st) = root_status (root st) /\
  (status (health_check MODEL_NAME st) = "healthy" <->
   forall http,
     snd (retrieve_context normalize_L2 st request elapsed) = inl http ->
     status_code http <> 503).
Proof.
  unfold health_check, root, retrieve_context. simpl.
  destruct (embedder st) as [m |]; [destruct (index st) as [ix |] |].
  - split; [reflexivity |]. split; [| reflexivity].
    intros _ http.
    destruct (retrieve_body normalize_L2 m ix st request elapsed)
      as [calls [e | response]]; simpl; intros H; [| discriminate].
    injection H as <-. simpl. discriminate.
  - split; [reflexivity |]. split; [discriminate |].
    intros H. exfalso. eapply H; reflexivity.
  - split; [reflexivity |]. split; [discriminate |].
    intros H. exfalso. eapply H; reflexivity.
Qed.

(** * Failures of a ready engine *)

(** X3.  With a model and an index in place, a model that fails on the
    enhanced query makes the handler answer 500 "Search failed: ..." with the
    model's own message, after the single [encode] call: nothing is
    normalised and no search is attempted. *)
Theorem model_failure_is_500 (normalize_L2 : Vector -> Vector) (st : State)
    (m : Embedder) (ix : Faiss.IndexFlatIP) (request : RAGQuery.t)
    (elapsed : Z) (e : Exception) :
  embedder st = Some m ->
  index st = Some ix ->
  embed m (enhance_query request) = inl e ->
  retrieve_context normalize_L2 st request elapsed =
    ([CallEncode [enhance_query request]],
     inl {| status_code := 500; detail := "Search failed: " ++ str e;
            py_context := Some e |}).
Proof.
  intros Hm Hix He. unfold retrieve_context. rewrite Hm, Hix.
  rewrite retrieve_body_unfold. cbv zeta. rewrite He. reflexivity.
Qed.

Lemma model_failure_is_500_witness :
  loading_error Fixtures.picky_started = None /\
  retrieve_context TestBackend.normalize_L2 Fixtures.picky_started
    (RAGQuery.default "visa?") 7 =
    ([CallEncode ["visa?"]],
     inl {| status_code := 500;
            detail := "Search failed: unsupported input";
            py_context := Some (VectorizationError "unsupported input") |}).
Proof.
  split; [vm_compute; reflexivity |].
  destruct (index Fixtures.picky_started) as [ix |] eqn:Eix;
    [| vm_compute in Eix; discriminate].
  exact (model_failure_is_500 TestBackend.normalize_L2 Fixtures.picky_started
           Fixtures.picky_model ix (RAGQuery.default "visa?") 7
           (VectorizationError "unsupported input") eq_refl Eix eq_refl).
Defined.

(** X4.  Whatever the globals and the request, the handler's calls to the
    libraries are an initial part of: one [encode] of the enhanced query,
    one normalisation, one search; and its outcome is a response, a 503 with
    no call made, or a 500 whose detail is "Search failed: " followed by the
    text of the exception it caught. *)
Theorem retrieve_outcomes (normalize_L2 : Vector -> Vector) (st : State)
    (request : RAGQuery.t) (elapsed : Z) :
  let out := retrieve_context normalize_L2 st request elapsed in
  (exists v k,
     is_prefix (fst out)
       [CallEncode [enhance_query request]; CallNormalizeL2 [v];
        CallSearch [normalize_L2 v] k]) /\
  ((exists response, snd out = inr response) \/
   (fst out = [] /\
    snd out = inl {| status_code := 503;
                     detail := "Simple RAG not initialized: "
                               ++ Py.format_opt (loading_error st);
                     py_context := None |}) \/
   (exists e,
      snd out = inl {| status_code := 500;
                       detail := "Search failed: " ++ str e;
                       py_context := Some e |})).
Proof.
  cbv zeta. unfold retrieve_context.
  assert (Hnil : forall l : list Call, is_prefix [] l)
    by (intros l; exists l; reflexivity).
  destruct (embedder st) as [m |]; [destruct (index st) as [ix |] |];
    try (split; [exists [], 0; apply Hnil | right; left; split; reflexivity]).
  rewrite retrieve_body_unfold. cbv zeta.
  destruct (embed m (enhance_query request)) as [e | v].
  { split.
    - exists [], 0. eexists. reflexivity.
    - right. right. exists e. reflexivity. }
  assert (Hfull : exists v0 k,
    is_prefix
      [CallEncode [enhance_query request]; CallNormalizeL2 [v];
       CallSearch [normalize_L2 v] (effective_k st request)]
      [CallEncode [enhance_query request]; CallNormalizeL2 [v0];
       CallSearch [normalize_L2 v0] k]).
  { exists v, (effective_k st request). exists []. reflexivity. }
  destruct (Faiss.search1 ix (normalize_L2 v) (effective_k st request))
    as [e | row].
  { split; [exact Hfull |]. right. right. exists e. reflexivity. }
  destruct (format_results (metadata st) (Py.enumerate row) [])
    as [e | results].
  { split; [exact Hfull |]. right. right. exists e. reflexivity. }
  split; [exact Hfull |]. left. eexists. reflexivity.
Qed.

(** * The shape of a response *)

Lemma format_results_length (md : list Document) (row : list (Z * Faiss.Hit)) :
  forall acc res,
    format_results md row acc = inr res ->
    (List.length res <= List.length acc + List.length row)%nat.
Proof.
  induction row as [| [i [s idx]] row IH]; intros acc res H; simpl in H.
  - injection H as <-. lia.
  - destruct (idx <? Z.of_nat (List.length md)).
    + destruct (Py.getitem md idx) as [e | doc]; [discriminate |].
      destruct (dict_item "content" doc) as [e | c]; [discriminate |].
      apply IH in H. rewrite length_app in H. simpl in *. lia.
    + apply IH in H. simpl. lia.
Qed.

Lemma search1_length (ix : Faiss.IndexFlatIP) (q : Vector) (k : Z)
    (row : list Faiss.Hit) :
  Faiss.search1 ix q k = inr row ->
  0 < k /\ Z.of_nat (List.length row) <= k.
Proof.
  unfold Faiss.search1.
  destruct (negb _); [discriminate |].
  destruct (k <=? 0) eqn:E; [discriminate |].
  apply Z.leb_gt in E. intros H. injection H as <-.
  split; [exact E |]. rewrite length_firstn. lia.
Qed.

(** X5.  On every state, a response never lists more results than asked
    for: [total_results] is the length of [results], and it is at most
    [max_results] (5 when [max_results] is 0 or null) and at most the number
    of documents. *)
Theorem response_size_bounded (normalize_L2 : Vector -> Vector) (st : State)
    (request : RAGQuery.t) (elapsed : Z) (calls : list Call)
    (response : RAGResponse.t) :
  retrieve_context normalize_L2 st request elapsed = (calls, inr response) ->
  RAGResponse.total_results response
    = Z.of_nat (List.length (RAGResponse.results response)) /\
  RAGResponse.total_results response
    <= Py.int_or (RAGQuery.max_results request) 5 /\
  RAGResponse.total_results response
    <= Z.of_nat (List.length (documents st)).
Proof.
  unfold retrieve_context.
  destruct (embedder st) as [m |]; [| discriminate].
  destruct (index st) as [ix |]; [| discriminate].
  rewrite retrieve_body_unfold. cbv zeta.
  destruct (embed m (enhance_query request)) as [e | v]; [discriminate |].
  destruct (Faiss.search1 ix (normalize_L2 v) (effective_k st request))
    as [e | row] eqn:Es; [discriminate |].
  destruct (format_results (metadata st) (Py.enumerate row) [])
    as [e | results] eqn:Ef; [discriminate |].
  intros H. injection H as _ <-. simpl.
  apply search1_length in Es. destruct Es as [_ Hrow].
  apply format_results_length in Ef.
  unfold Py.enumerate in Ef. rewrite enumerate_from_length in Ef.
  simpl in Ef. unfold effective_k in Hrow.
  split; [reflexivity |]. split; lia.
Qed.

Lemma response_size_bounded_witness :
  exists calls response,
    retrieve_context TestBackend.normalize_L2 TestBackend.started
      (RAGQuery.with_max_results scenario_request (Some 3)) 7
    = (calls, inr response) /\
    RAGResponse.total_results response <= 3.
Proof.
  destruct (retrieve_context TestBackend.normalize_L2 TestBackend.started
              (RAGQuery.with_max_results scenario_request (Some 3)) 7)
    as [calls [http | response]] eqn:E.
  - vm_compute in E. discriminate.
  - exists calls, response. split; [reflexivity |].
    exact (proj1 (proj2 (response_size_bounded _ _ _ _ _ _ E))).
Defined.

Lemma enumerate_from_nth {A : Type} (l : list A) :
  forall i j p, nth_error (Py.enumerate_from i l) j = Some p ->
    fst p = i + Z.of_nat j.
Proof.
  induction l as [| a l IH]; intros i j p H.
  - destruct j; discriminate.
  - destruct j as [| j]; simpl in H.
    + injection H as <-. simpl. lia.
    + apply IH in H. lia.
Qed.

(** X6.  After a successful start-up, the result at position [j] of a
    response (counting from 0) has rank [j + 1]: ranks run 1, 2, 3, ...
    without gaps. *)
Theorem ranks_are_positions (normalize_L2 : Vector -> Vector) (st : State)
    (m : Embedder) (ix : Faiss.IndexFlatIP) (request : RAGQuery.t)
    (elapsed : Z) (calls : list Call) (response : RAGResponse.t) :
  aligned normalize_L2 st m ix ->
  retrieve_context normalize_L2 st request elapsed = (calls, inr response) ->
  forall j r,
    nth_error (RAGResponse.results response) j = Some r ->
    rank (RAGResult.metadata r) = Z.of_nat j + 1.
Proof.
  intros Hal. rewrite (retrieve_aligned normalize_L2 st m ix Hal). cbv zeta.
  destruct (embed m (enhance_query request)) as [e | v]; [discriminate |].
  destruct (Faiss.search1 ix (normalize_L2 v) (effective_k st request))
    as [e | row]; [discriminate |].
  intros H. injection H as _ <-. simpl. intros j r Hj.
  rewrite nth_error_map in Hj.
  destruct (nth_error (Py.enumerate row) j) as [p |] eqn:Ep; [| discriminate].
  injection Hj as <-. unfold render. simpl.
  apply enumerate_from_nth in Ep. lia.
Qed.

Lemma ranks_are_positions_witness :
  exists calls response,
    retrieve_context TestBackend.normalize_L2 TestBackend.started
      scenario_request 7 = (calls, inr response) /\
    map (fun r => rank (RAGResult.metadata r)) (RAGResponse.results response)
    = [1; 2; 3; 4; 5] /\
    forall r, nth_error (RAGResponse.results response) 2 = Some r ->
              rank (RAGResult.metadata r) = 3.
Proof.
  destruct (retrieve_context TestBackend.normalize_L2 TestBackend.started
              scenario_request 7) as [calls [http | response]] eqn:E.
  - vm_compute in E. discriminate.
  - exists calls, response. split; [reflexivity |]. split.
    + vm_compute in E. injection E as _ <-. reflexivity.
    + intros r Hr.
      exact (ranks_are_positions _ _ _ _ _ _ _ _ started_aligned E 2%nat r Hr).
Defined.

Lemma search1_labels_NoDup (ix : Faiss.IndexFlatIP) (q : Vector) (k : Z)
    (row : list Faiss.Hit) :
  Faiss.search1 ix q k = inr row ->
  NoDup (map snd row) /\ StronglySorted strictly_before row.
Proof.
  unfold Faiss.search1.
  destruct (negb _); [discriminate |].
  destruct (k <=? 0); [discriminate |].
  intros H. injection H as <-.
  split; [| exact (proj1 (proj2 (proj2 (search1_hits ix q k))))].
  set (all := Faiss.score_all q 0 (Faiss.xb ix)).
  assert (Hnd : NoDup (map snd (Faiss.sort all))).
  { eapply Permutation_NoDup.
    - apply Permutation_map. apply Permutation_sym. apply sort_perm.
    - apply score_all_labels_NoDup. }
  rewrite <- (firstn_skipn (Z.to_nat k) (Faiss.sort all)) in Hnd.
  rewrite map_app in Hnd. apply NoDup_app_remove_r in Hnd. exact Hnd.
Qed.

(** X7.  After a successful start-up, the results of a response are ordered
    by relevance: the scores never increase down the list, results of equal
    score come by ascending document index, and no document is listed
    twice. *)
Theorem response_ranked_and_distinct (normalize_L2 : Vector -> Vector)
    (st : State) (m : Embedder) (ix : Faiss.IndexFlatIP)
    (request : RAGQuery.t) (elapsed : Z) (calls : list Call)
    (response : RAGResponse.t) :
  aligned normalize_L2 st m ix ->
  retrieve_context normalize_L2 st request elapsed = (calls, inr response) ->
  scores_non_increasing (response_hits response) /\
  StronglySorted strictly_before (response_hits response) /\
  NoDup (map (fun r => document_index (RAGResult.metadata r))
             (RAGResponse.results response)).
Proof.
  intros Hal Hr.
  destruct (retrieve_results_in_search_order _ _ _ _ _ _ _ _ Hal Hr)
    as [v [row [_ [Hs Hrow]]]].
  destruct (search1_labels_NoDup _ _ _ _ Hs) as [Hnd Hsorted].
  fold (response_hits response) in Hrow.
  split; [| split].
  - rewrite Hrow. eapply sorted_weaken; [| exact Hsorted].
    intros a b. apply strictly_before_scores.
  - rewrite Hrow. exact Hsorted.
  - rewrite <- Hrow in Hnd. unfold response_hits in Hnd.
    rewrite map_map in Hnd. exact Hnd.
Qed.

Lemma response_ranked_and_distinct_witness :
  exists calls response,
    retrieve_context TestBackend.normalize_L2 TestBackend.started
      scenario_request 7 = (calls, inr response) /\
    map snd (response_hits response) = [7; 2; 1; 3; 0] /\
    scores_non_increasing (response_hits response).
Proof.
  destruct (retrieve_context TestBackend.normalize_L2 TestBackend.started
              scenario_request 7) as [calls [http | response]] eqn:E.
  - vm_compute in E. discriminate.
  - exists calls, response. split; [reflexivity |]. split.
    + vm_compute in E. injection E as _ <-. reflexivity.
    + exact (proj1 (response_ranked_and_distinct _ _ _ _ _ _ _ _
                      started_aligned E)).
Defined.

(** X8.  After a successful start-up, the relevance score of a result is the
    inner product of the normalised embedding of the enhanced query with the
    normalised embedding of the content of that very result. *)
Theorem relevance_is_similarity (normalize_L2 : Vector -> Vector)
    (st : State) (m : Embedder) (ix : Faiss.IndexFlatIP)
    (request : RAGQuery.t) (elapsed : Z) (calls : list Call)
    (response : RAGResponse.t) :
  aligned normalize_L2 st m ix ->
  retrieve_context normalize_L2 st request elapsed = (calls, inr response) ->
  exists vq,
    embed m (enhance_query request) = inr vq /\
    forall r, In r (RAGResponse.results response) ->
      exists vd,
        embed m (RAGResult.content r) = inr vd /\
        RAGResult.relevance_score r
        = inner_product (normalize_L2 vq) (normalize_L2 vd).
Proof.
  intros Hal. rewrite (retrieve_aligned normalize_L2 st m ix Hal). cbv zeta.
  destruct (embed m (enhance_query request)) as [e | vq]; [discriminate |].
  destruct (Faiss.search1 ix (normalize_L2 vq) (effective_k st request))
    as [e | row] eqn:Es; [discriminate |].
  intros H. injection H as _ <-. simpl.
  exists vq. split; [reflexivity |]. intros r Hr.
  apply in_map_iff in Hr. destruct Hr as [[i [s idx]] [<- Hin]].
  apply enumerate_from_In in Hin.
  unfold Faiss.search1 in Es.
  destruct (negb _); [discriminate |].
  destruct (effective_k st request <=? 0); [discriminate |].
  injection Es as <-.
  destruct (search1_hits ix (normalize_L2 vq) (effective_k st request))
    as [_ [Hhits _]].
  destruct (Hhits s idx Hin) as [Hrange [v [Hv Hs]]].
  rewrite (al_ntotal _ _ _ _ Hal) in Hrange.
  destruct (nth_error (documents st) (Z.to_nat idx)) as [doc |] eqn:En;
    [| apply nth_error_None in En; lia].
  destruct (al_vectors _ _ _ _ Hal _ _ En) as [c [vd [Hc [Hvd Hxb]]]].
  rewrite Hv in Hxb. injection Hxb as ->.
  exists vd. unfold render. simpl.
  erewrite nth_error_nth by exact En.
  unfold dict_get_default. rewrite Hc.
  split; [exact Hvd | exact Hs].
Qed.

Lemma relevance_is_similarity_witness :
  exists calls response,
    retrieve_context TestBackend.normalize_L2 TestBackend.started
      scenario_request 7 = (calls, inr response) /\
    Forall (fun r =>
              RAGResult.relevance_score r
              = inner_product
                  (TestBackend.normalize_L2
                     (TestBackend.letters
                        "visa requirements Portugal cost of living"))
                  (TestBackend.normalize_L2
                     (TestBackend.letters (RAGResult.content r))))
           (RAGResponse.results response).
Proof.
  destruct (retrieve_context TestBackend.normalize_L2 TestBackend.started
              scenario_request 7) as [calls [http | response]] eqn:E.
  - vm_compute in E. discriminate.
  - exists calls, response. split; [reflexivity |].
    destruct (relevance_is_similarity _ _ _ _ _ _ _ _ started_aligned E)
      as [vq [Hq Hall]].
    injection Hq as <-.
    apply Forall_forall. intros r Hr.
    destruct (Hall r Hr) as [vd [Hvd Hs]].
    injection Hvd as <-. exact Hs.
Defined.

(** * Documents with missing fields *)

(** X9.  After a successful start-up, a result whose document has no
    "source" key carries the source "Document <document_index>", and a
    missing "country" or "category" key is reported as null. *)
Theorem missing_fields_defaults (normalize_L2 : Vector -> Vector)
    (st : State) (m : Embedder) (ix : Faiss.IndexFlatIP)
    (request : RAGQuery.t) (elapsed : Z) (calls : list Call)
    (response : RAGResponse.t) :
  aligned normalize_L2 st m ix ->
  retrieve_context normalize_L2 st request elapsed = (calls, inr response) ->
  forall r, In r (RAGResponse.results response) ->
    let idx := document_index (RAGResult.metadata r) in
    exists doc,
      nth_error (documents st) (Z.to_nat idx) = Some doc /\
      (dict_get "source" doc = None ->
       RAGResult.source r = "Document " ++ Py.str_int idx) /\
      (dict_get "country" doc = None ->
       md_country (RAGResult.metadata r) = None) /\
      (dict_get "category" doc = None ->
       md_category (RAGResult.metadata r) = None).
Proof.
  intros Hal Hr r Hin idx.
  pose proof (retrieve_results_from_documents _ _ _ _ _ _ _ _ Hal Hr) as H.
  rewrite Forall_forall in H.
  destruct (H r Hin) as [doc [_ [Hnth [_ [Hs [Hc Hg]]]]]].
  exists doc. split; [exact Hnth |].
  split; [| split].
  - intros Hnone. rewrite Hs. unfold dict_get_default. fold idx.
    rewrite Hnone. reflexivity.
  - intros Hnone. rewrite Hc. exact Hnone.
  - intros Hnone. rewrite Hg. exact Hnone.
Qed.

Lemma missing_fields_defaults_witness :
  exists calls response r,
    retrieve_context TestBackend.normalize_L2
      (Fixtures.start Fixtures.sparse_documents) (RAGQuery.default "bread") 7
    = (calls, inr response) /\
    nth_error (RAGResponse.results response) 0 = Some r /\
    RAGResult.content r = "Cost of bread in Spain" /\
    RAGResult.source r = "Document 1" /\
    md_country (RAGResult.metadata r) = None.
Proof.
  destruct (init_aligned TestBackend.MODEL_NAME TestBackend.load
              TestBackend.normalize_L2 Fixtures.sparse_documents initial_state)
    as [m [ix [Hal _]]].
  { reflexivity. }
  { vm_compute. reflexivity. }
  fold (Fixtures.start Fixtures.sparse_documents) in Hal.
  destruct (retrieve_context TestBackend.normalize_L2
              (Fixtures.start Fixtures.sparse_documents)
              (RAGQuery.default "bread") 7)
    as [calls [http | response]] eqn:E.
  { vm_compute in E. discriminate. }
  destruct (nth_error (RAGResponse.results response) 0) as [r |] eqn:Er.
  2: { vm_compute in E. injection E as _ <-. discriminate. }
  exists calls, response, r. split; [reflexivity |]. split; [exact Er |].
  destruct (missing_fields_defaults _ _ _ _ _ _ _ _ Hal E r
              (nth_error_In _ _ Er))
    as [doc [Hdoc [Hsrc [Hcountry _]]]].
  assert (Hr : r = render Fixtures.sparse_documents
                     (0, (RAGResult.relevance_score r, 1))).
  { vm_compute in E. injection E as _ <-. injection Er as <-. reflexivity. }
  assert (Hidx : document_index (RAGResult.metadata r) = 1)
    by (rewrite Hr; reflexivity).
  cbv zeta in Hdoc, Hsrc. rewrite Hidx in Hdoc, Hsrc.
  assert (Hd : doc = [("content", "Cost of bread in Spain")]).
  { vm_compute in Hdoc. injection Hdoc as <-. reflexivity. }
  subst doc.
  split; [rewrite Hr; reflexivity |].
  split; [exact (Hsrc eq_refl) | exact (Hcountry eq_refl)].
Defined.

(** * Start-up failures and what follows *)

Lemma map_result_key_error (docs : list Document) :
  (exists doc, In doc docs /\ dict_get "content" doc = None) ->
  map_result (dict_item "content") docs = inl (KeyError "content").
Proof.
  induction docs as [| d docs IH]; intros [doc [Hin Hnone]].
  - contradiction.
  - simpl. unfold dict_item at 1.
    destruct (dict_get "content" d) as [c |] eqn:Ec; [| reflexivity].
    destruct Hin as [-> | Hin]; [rewrite Hnone in Ec; discriminate |].
    rewrite IH; [reflexivity |]. exists doc. split; assumption.
Qed.

(** X10.  When the model loads but some document of the corpus has no
    "content" key, start-up stops before anything is embedded: it records the
    error "'content'", leaves the model handle and the corpus assigned and
    the index and the metadata unassigned, and from then on every request is
    answered 503 with that error in its detail. *)
Theorem startup_missing_content (MODEL_NAME : string)
    (SentenceTransformer : string -> result Embedder)
    (normalize_L2 : Vector -> Vector) (docs : list Document) (m : Embedder) :
  SentenceTransformer MODEL_NAME = inr m ->
  (exists doc, In doc docs /\ dict_get "content" doc = None) ->
  let st :=
    initialize_from MODEL_NAME SentenceTransformer normalize_L2 docs
      initial_state in
  loading_error st = Some "'content'" /\
  embedder st = Some m /\ documents st = docs /\
  index st = None /\ metadata st = [] /\
  forall request elapsed,
    retrieve_context normalize_L2 st request elapsed =
      ([],
       inl {| status_code := 503;
              detail := "Simple RAG not initialized: 'content'";
              py_context := None |}).
Proof.
  intros Hload Hmissing st. subst st. unfold initialize_from.
  rewrite Hload. cbn [documents set_documents set_embedder].
  rewrite (map_result_key_error docs Hmissing).
  repeat split.
Qed.

Lemma startup_missing_content_witness :
  loading_error (Fixtures.start Fixtures.broken_documents) = Some "'content'" /\
  index (Fixtures.start Fixtures.broken_documents) = None /\
  retrieve_context TestBackend.normalize_L2
    (Fixtures.start Fixtures.broken_documents) scenario_request 7 =
    ([],
     inl {| status_code := 503;
            detail := "Simple RAG not initialized: 'content'";
            py_context := None |}).
Proof.
  destruct (startup_missing_content TestBackend.MODEL_NAME TestBackend.load
              TestBackend.normalize_L2 Fixtures.broken_documents
              TestBackend.model eq_refl)
    as [Herr [_ [_ [Hix [_ Hret]]]]].
  - exists [("source", "Nowhere")]. split; [right; left; reflexivity |].
    reflexivity.
  - split; [exact Herr |]. split; [exact Hix |].
    exact (Hret scenario_request 7).
Defined.

(** X11.  When the model loads and the corpus is empty, start-up fails on
    the shape of the embeddings: it records "tuple index out of range",
    creates no index, and every request is then answered 503. *)
Theorem startup_empty_corpus (MODEL_NAME : string)
    (SentenceTransformer : string -> result Embedder)
    (normalize_L2 : Vector -> Vector) (m : Embedder) :
  SentenceTransformer MODEL_NAME = inr m ->
  let st :=
    initialize_from MODEL_NAME SentenceTransformer normalize_L2 []
      initial_state in
  loading_error st = Some "tuple index out of range" /\
  embedder st = Some m /\ index st = None /\
  forall request elapsed,
    retrieve_context normalize_L2 st request elapsed =
      ([],
       inl {| status_code := 503;
              detail := "Simple RAG not initialized: tuple index out of range";
              py_context := None |}).
Proof.
  intros Hload st. subst st. unfold initialize_from.
  rewrite Hload. repeat split.
Qed.

Lemma startup_empty_corpus_witness :
  loading_error (Fixtures.start []) = Some "tuple index out of range" /\
  index (Fixtures.start []) = None.
Proof.
  destruct (startup_empty_corpus TestBackend.MODEL_NAME TestBackend.load
              TestBackend.normalize_L2 TestBackend.model eq_refl)
    as [Herr [_ [Hix _]]].
  split; [exact Herr | exact Hix].
Defined.

(** X12.  When the model does not load, start-up changes nothing but
    [loading_error]; started from the initial globals, every request is then
    answered 503 with the loader's message, and the health endpoint reports
    "unhealthy", the same message, the model "Not loaded" and no document
    indexed. *)
Theorem startup_model_load_failure (MODEL_NAME : string)
    (SentenceTransformer : string -> result Embedder)
    (normalize_L2 : Vector -> Vector) (docs : list Document) (e : Exception) :
  SentenceTransformer MODEL_NAME = inl e ->
  (forall st,
     let st' :=
       initialize_from MODEL_NAME SentenceTransformer normalize_L2 docs st in
     embedder st' = embedder st /\ index st' = index st /\
     documents st' = documents st /\ metadata st' = metadata st /\
     loading_error st' = Some (str e)) /\
  let st :=
    initialize_from MODEL_NAME SentenceTransformer normalize_L2 docs
      initial_state in
  (forall request elapsed,
     retrieve_context normalize_L2 st request elapsed =
       ([],
        inl {| status_code := 503;
               detail := "Simple RAG not initialized: " ++ str e;
               py_context := None |})) /\
  health_check MODEL_NAME st =
    {| status := "unhealthy";
       message := "Initialization failed: " ++ str e;
       model := "Not loaded";
       documents_indexed := 0 |}.
Proof.
  intros Hload. unfold initialize_from. rewrite Hload.
  split; [intros st; repeat split |]. split; [intros; reflexivity |].
  reflexivity.
Qed.

Lemma startup_model_load_failure_witness :
  health_check TestBackend.MODEL_NAME TestBackend.not_started =
    {| status := "unhealthy";
       message := "Initialization failed: model not found";
       model := "Not loaded";
       documents_indexed := 0 |}.
Proof.
  exact (proj2 (proj2 (startup_model_load_failure TestBackend.MODEL_NAME
                         TestBackend.load_fails TestBackend.normalize_L2
                         get_emigration_documents
                         (InitializationError "model not found") eq_refl))).
Defined.

(** X13.  Start-up is idempotent: running it again, with the same model
    loader and corpus, leaves the globals exactly as the first run left
    them, whether that run succeeded or failed. *)
Theorem startup_idempotent (MODEL_NAME : string)
    (SentenceTransformer : string -> result Embedder)
    (normalize_L2 : Vector -> Vector) (docs : list Document) (st : State) :
  let init :=
    initialize_from MODEL_NAME SentenceTransformer normalize_L2 docs in
  init (init st) = init st.
Proof.
  cbv zeta. unfold initialize_from.
  destruct (SentenceTransformer MODEL_NAME) as [e | m]; [reflexivity |].
  cbn [documents set_documents set_embedder].
  destruct (map_result (dict_item "content") docs) as [e | texts];
    [reflexivity |].
  destruct (encode m texts) as [e | embs]; [reflexivity |].
  destruct (shape1 embs) as [e | dimension]; [reflexivity |].
  destruct (Faiss.add (Faiss.new dimension) (map normalize_L2 embs))
    as [e | ix]; reflexivity.
Qed.

Lemma map_result_ok {A B : Type} (f : A -> result B) (P : B -> Prop)
    (l : list A) :
  (forall a, In a l -> exists b, f a = inr b /\ P b) ->
  exists bs, map_result f l = inr bs /\ Forall P bs /\
             List.length bs = List.length l.
Proof.
  induction l as [| a l IH]; intros H.
  - exists []. repeat split. constructor.
  - destruct (H a (or_introl eq_refl)) as [b [Hb HP]].
    destruct IH as [bs [Hbs [HPs Hlen]]].
    { intros x Hx. apply H. right. exact Hx. }
    exists (b :: bs). simpl. rewrite Hb, Hbs.
    split; [reflexivity |]. split; [constructor; assumption |].
    rewrite Hlen. reflexivity.
Qed.

(** X14.  Start-up succeeds whenever the model loads, the corpus is not
    empty, every document has a content, and the model embeds every content
    into a vector of one common dimension that normalisation preserves: no
    error is recorded, the globals are aligned over the corpus with an index
    of that dimension, and the health endpoint reports "healthy" with the
    model name and the number of documents. *)
Theorem startup_succeeds (MODEL_NAME : string)
    (SentenceTransformer : string -> result Embedder)
    (normalize_L2 : Vector -> Vector) (docs : list Document) (st : State)
    (m : Embedder) (D : nat) :
  SentenceTransformer MODEL_NAME = inr m ->
  docs <> [] ->
  loading_error st = None ->
  (forall doc, In doc docs ->
     exists c, dict_get "content" doc = Some c /\
       exists v, embed m c = inr v /\
                 List.length v = D /\ List.length (normalize_L2 v) = D) ->
  let st' :=
    initialize_from MODEL_NAME SentenceTransformer normalize_L2 docs st in
  loading_error st' = None /\
  (exists ix, aligned normalize_L2 st' m ix /\ Faiss.d ix = D) /\
  health_check MODEL_NAME st' =
    {| status := "healthy";
       message := "Simple RAG service operational";
       model := MODEL_NAME;
       documents_indexed := Z.of_nat (List.length docs) |}.
Proof.
  intros Hload Hne Hnone Hdocs st'.
  destruct (map_result_ok (dict_item "content")
              (fun c => exists v, embed m c = inr v /\
                          List.length v = D /\
                          List.length (normalize_L2 v) = D) docs)
    as [texts [Ht [HPt Hlt]]].
  { intros doc Hin. destruct (Hdocs doc Hin) as [c [Hc Hv]].
    exists c. unfold dict_item. rewrite Hc. split; [reflexivity | exact Hv]. }
  destruct (map_result_ok (embed m)
              (fun v => List.length v = D /\
                        List.length (normalize_L2 v) = D) texts)
    as [embs [He [HPe Hle]]].
  { rewrite Forall_forall in HPt. exact HPt. }
  assert (Hshape : shape1 embs = inr D).
  { destruct embs as [| v embs].
    - destruct docs; [contradiction | simpl in *; lia].
    - inversion HPe as [| ? ? [Hv _] _]; subst. reflexivity. }
  assert (Hadd : Faiss.add (Faiss.new D) (map normalize_L2 embs)
                 = inr {| Faiss.d := D; Faiss.xb := map normalize_L2 embs |}).
  { unfold Faiss.add.
    destruct (map normalize_L2 embs) as [| w ws] eqn:Em.
    - destruct embs; [discriminate Hshape | discriminate Em].
    - rewrite <- Em.
      replace (forallb _ (map normalize_L2 embs)) with true; [reflexivity |].
      symmetry. apply forallb_forall. intros x Hx.
      apply in_map_iff in Hx. destruct Hx as [v [<- Hv]].
      rewrite Forall_forall in HPe. destruct (HPe v Hv) as [_ Hn].
      simpl. apply Nat.eqb_eq. exact Hn. }
  assert (Hst : st' =
    set_metadata
      (set_index
         (set_index (set_documents (set_embedder st m) docs) (Faiss.new D))
         {| Faiss.d := D; Faiss.xb := map normalize_L2 embs |})
      docs).
  { subst st'. unfold initialize_from. rewrite Hload.
    cbn [documents set_documents set_embedder].
    unfold encode. rewrite Ht, He, Hshape, Hadd. reflexivity. }
  assert (Herr : loading_error st' = None) by (rewrite Hst; exact Hnone).
  split; [exact Herr |]. split.
  - destruct (init_aligned MODEL_NAME SentenceTransformer normalize_L2 docs st
                Hnone Herr) as [m0 [ix0 [Hal _]]].
    fold st' in Hal.
    assert (Hm : Some m0 = Some m).
    { rewrite <- (al_embedder _ _ _ _ Hal), Hst. reflexivity. }
    assert (Hix : Some ix0
                  = Some {| Faiss.d := D;
                            Faiss.xb := map normalize_L2 embs |}).
    { rewrite <- (al_index _ _ _ _ Hal), Hst. reflexivity. }
    injection Hm as ->. injection Hix as ->.
    eexists. split; [exact Hal | reflexivity].
  - rewrite Hst. reflexivity.
Qed.

Lemma test_normalize_length (v : Vector) :
  List.length (TestBackend.normalize_L2 v) = List.length v.
Proof.
  unfold TestBackend.normalize_L2.
  destruct (Qeq_bool _ 0); [reflexivity | apply length_map].
Qed.

Lemma startup_succeeds_witness :
  loading_error TestBackend.started = None /\
  health_check TestBackend.MODEL_NAME TestBackend.started =
    {| status := "healthy";
       message := "Simple RAG service operational";
       model := "all-MiniLM-L6-v2";
       documents_indexed := 8 |}.
Proof.
  destruct (startup_succeeds TestBackend.MODEL_NAME TestBackend.load
              TestBackend.normalize_L2 get_emigration_documents initial_state
              TestBackend.model 3%nat eq_refl)
    as [Herr [_ Hhealth]].
  - discriminate.
  - reflexivity.
  - intros doc Hin. simpl in Hin.
    repeat (destruct Hin as [<- | Hin];
            [eexists; split; [reflexivity |];
             eexists; split; [reflexivity |];
             split; [reflexivity |];
             rewrite test_normalize_length; reflexivity |]).
    contradiction.
  - split; [exact Herr | exact Hhealth].
Defined.

(** * What a request can influence *)

(** X15.  Country and category never filter the candidates: two requests
    with the same enhanced text and the same effective [max_results] make
    the same library calls and either fail with the same error or return the
    same results and the same [total_results]; only the echoed query may
    differ. *)
Theorem only_text_and_k_matter (normalize_L2 : Vector -> Vector) (st : State)
    (r1 r2 : RAGQuery.t) (elapsed : Z) :
  enhance_query r1 = enhance_query r2 ->
  Py.int_or (RAGQuery.max_results r1) 5
    = Py.int_or (RAGQuery.max_results r2) 5 ->
  let out1 := retrieve_context normalize_L2 st r1 elapsed in
  let out2 := retrieve_context normalize_L2 st r2 elapsed in
  fst out1 = fst out2 /\
  match snd out1, snd out2 with
  | inr a, inr b =>
      RAGResponse.results a = RAGResponse.results b /\
      RAGResponse.total_results a = RAGResponse.total_results b
  | inl e1, inl e2 => e1 = e2
  | _, _ => False
  end.
Proof.
  intros Htext Hk. cbv zeta. unfold retrieve_context.
  destruct (embedder st) as [m |]; [destruct (index st) as [ix |] |];
    [| split; reflexivity | split; reflexivity].
  rewrite (retrieve_body_unfold normalize_L2 m ix st r1 elapsed).
  rewrite (retrieve_body_unfold normalize_L2 m ix st r2 elapsed).
  cbv zeta. unfold effective_k.
  rewrite <- Htext, <- Hk.
  destruct (embed m (enhance_query r1)) as [e | v]; [split; reflexivity |].
  destruct (Faiss.search1 _ _ _) as [e | row]; [split; reflexivity |].
  destruct (format_results _ _ _) as [e | results]; simpl;
    split; try split; reflexivity.
Qed.

Lemma only_text_and_k_matter_witness :
  let r1 := RAGQuery.default "visa Portugal" in
  let r2 :=
    {| RAGQuery.query := "visa"; RAGQuery.country := Some "Portugal";
       RAGQuery.category := None; RAGQuery.max_results := Some 0 |} in
  enhance_query r1 = enhance_query r2 /\
  fst (retrieve_context TestBackend.normalize_L2 TestBackend.started r1 7)
  = fst (retrieve_context TestBackend.normalize_L2 TestBackend.started r2 7).
Proof.
  intros r1 r2.
  assert (Htext : enhance_query r1 = enhance_query r2)
    by (vm_compute; reflexivity).
  assert (Hk : Py.int_or (RAGQuery.max_results r1) 5
               = Py.int_or (RAGQuery.max_results r2) 5)
    by (vm_compute; reflexivity).
  split; [exact Htext |].
  pose proof (only_text_and_k_matter TestBackend.normalize_L2
                TestBackend.started r1 r2 7 Htext Hk) as H.
  cbv zeta in H. destruct H as [H _]. exact H.
Defined.

(** * Labels outside the metadata list *)

(** X16.  The formatting loop guards only the upper bound of a label.  A
    label at or beyond the length of the metadata list is skipped without a
    result; a negative label down to minus that length passes the guard and
    is read from the end of the list, so that label -1 is rendered from the
    last document while [document_index] stays -1; a label below minus the
    length raises [IndexError]. *)
Theorem label_bounds (md : list Document) (i : Z) (s : Q) (idx : Z)
    (rest : list (Z * Faiss.Hit)) (acc : list RAGResult.t) :
  let n := Z.of_nat (List.length md) in
  (n <= idx ->
   format_results md ((i, (s, idx)) :: rest) acc
   = format_results md rest acc) /\
  (idx < - n ->
   format_results md ((i, (s, idx)) :: rest) acc = inl IndexError) /\
  (- n <= idx < 0 ->
   forall doc c,
     nth_error md (Z.to_nat (n + idx)) = Some doc ->
     dict_get "content" doc = Some c ->
     format_results md ((i, (s, idx)) :: rest) acc
     = format_results md rest (acc ++ [make_result i s idx doc c])).
Proof.
  cbv zeta. split; [| split].
  - intros H. simpl.
    replace (idx <? Z.of_nat (List.length md)) with false
      by (symmetry; apply Z.ltb_ge; lia).
    reflexivity.
  - intros H. simpl.
    replace (idx <? Z.of_nat (List.length md)) with true
      by (symmetry; apply Z.ltb_lt; lia).
    unfold Py.getitem.
    replace (idx <? 0) with true by (symmetry; apply Z.ltb_lt; lia).
    replace (0 <=? Z.of_nat (List.length md) + idx) with false
      by (symmetry; apply Z.leb_gt; lia).
    reflexivity.
  - intros H doc c Hdoc Hc. simpl.
    replace (idx <? Z.of_nat (List.length md)) with true
      by (symmetry; apply Z.ltb_lt; lia).
    unfold Py.getitem.
    replace (idx <? 0) with true by (symmetry; apply Z.ltb_lt; lia).
    replace (0 <=? Z.of_nat (List.length md) + idx) with true
      by (symmetry; apply Z.leb_le; lia).
    replace (Z.of_nat (List.length md) + idx <? Z.of_nat (List.length md))
      with true by (symmetry; apply Z.ltb_lt; lia).
    simpl. rewrite Hdoc. unfold dict_item. rewrite Hc. reflexivity.
Qed.

Lemma label_bounds_witness :
  exists r,
    format_results Fixtures.sparse_documents [(0, (1%Q, -1))] [] = inr [r] /\
    RAGResult.content r = "Cost of bread in Spain" /\
    document_index (RAGResult.metadata r) = -1 /\
    format_results Fixtures.sparse_documents [(0, (1%Q, 2))] [] = inr [] /\
    format_results Fixtures.sparse_documents [(0, (1%Q, -3))] []
    = inl IndexError.
Proof.
  pose proof (label_bounds Fixtures.sparse_documents 0 1%Q (-1) [] [])
    as Hneg.
  pose proof (label_bounds Fixtures.sparse_documents 0 1%Q 2 [] [])
    as Hskip.
  pose proof (label_bounds Fixtures.sparse_documents 0 1%Q (-3) [] [])
    as Hlow.
  cbv zeta in Hneg, Hskip, Hlow.
  destruct Hneg as [_ [_ Hneg]].
  destruct Hskip as [Hskip _].
  destruct Hlow as [_ [Hlow _]].
  exists (make_result 0 1%Q (-1) [("content", "Cost of bread in Spain")]
            "Cost of bread in Spain").
  assert (Hr : - Z.of_nat (List.length Fixtures.sparse_documents) <= -1 < 0)
    by (simpl; lia).
  assert (Hs : Z.of_nat (List.length Fixtures.sparse_documents) <= 2)
    by (simpl; lia).
  assert (Hl : -3 < - Z.of_nat (List.length Fixtures.sparse_documents))
    by (simpl; lia).
  split.
  - exact (eq_trans (Hneg Hr [("content", "Cost of bread in Spain")]
                       "Cost of bread in Spain" eq_refl eq_refl) eq_refl).
  - split; [reflexivity |]. split; [reflexivity |]. split.
    + exact (eq_trans (Hskip Hs) eq_refl).
    + exact (Hlow Hl).
Defined.

(** * The best matches *)

(** X17.  After a successful start-up, a response lists the best matches:
    every document of the corpus that is not among the results has a
    similarity to the enhanced query (the inner product of the two
    normalised embeddings) no higher than the relevance score of any result
    listed. *)
Theorem response_lists_best_matches (normalize_L2 : Vector -> Vector)
    (st : State) (m : Embedder) (ix : Faiss.IndexFlatIP)
    (request : RAGQuery.t) (elapsed : Z) (calls : list Call)
    (response : RAGResponse.t) :
  aligned normalize_L2 st m ix ->
  retrieve_context normalize_L2 st request elapsed = (calls, inr response) ->
  exists vq,
    embed m (enhance_query request) = inr vq /\
    forall j doc,
      nth_error (documents st) j = Some doc ->
      ~ In (Z.of_nat j)
           (map (fun r => document_index (RAGResult.metadata r))
                (RAGResponse.results response)) ->
      exists c vd,
        dict_get "content" doc = Some c /\
        embed m c = inr vd /\
        forall r, In r (RAGResponse.results response) ->
          (inner_product (normalize_L2 vq) (normalize_L2 vd)
           <= RAGResult.relevance_score r)%Q.
Proof.
  intros Hal Hr.
  destruct (retrieve_results_in_search_order _ _ _ _ _ _ _ _ Hal Hr)
    as [vq [row [Hq [Hs Hrow]]]].
  exists vq. split; [exact Hq |].
  intros j doc Hj Hnot.
  destruct (al_vectors _ _ _ _ Hal _ _ Hj) as [c [vd [Hc [Hvd Hxb]]]].
  exists c, vd. split; [exact Hc |]. split; [exact Hvd |].
  intros r Hin.
  unfold Faiss.search1 in Hs.
  destruct (negb _); [discriminate |].
  destruct (effective_k st request <=? 0); [discriminate |].
  injection Hs as Hs.
  destruct (search1_hits ix (normalize_L2 vq) (effective_k st request))
    as [_ [_ [_ Htop]]].
  cbv zeta in Htop. rewrite Hs in Htop.
  assert (Hlabels :
    map snd row = map (fun r => document_index (RAGResult.metadata r))
                      (RAGResponse.results response)).
  { rewrite <- Hrow, map_map. reflexivity. }
  rewrite <- Hlabels in Hnot.
  assert (Hhit : In (RAGResult.relevance_score r,
                     document_index (RAGResult.metadata r)) row).
  { rewrite <- Hrow.
    apply (in_map (fun r => (RAGResult.relevance_score r,
                             document_index (RAGResult.metadata r)))).
    exact Hin. }
  apply (strictly_before_scores _ _ (Htop j _ Hxb Hnot _ Hhit)).
Qed.

Lemma response_lists_best_matches_witness :
  exists calls response vq,
    retrieve_context TestBackend.normalize_L2 TestBackend.started
      (RAGQuery.with_max_results scenario_request (Some 2)) 7
    = (calls, inr response) /\
    embed TestBackend.model
      (enhance_query (RAGQuery.with_max_results scenario_request (Some 2)))
    = inr vq /\
    map (fun r => document_index (RAGResult.metadata r))
        (RAGResponse.results response) = [7; 2].
Proof.
  destruct (retrieve_context TestBackend.normalize_L2 TestBackend.started
              (RAGQuery.with_max_results scenario_request (Some 2)) 7)
    as [calls [http | response]] eqn:E.
  { vm_compute in E. discriminate. }
  pose proof (response_lists_best_matches _ _ _ _ _ _ _ _ started_aligned E)
    as H.
  destruct H as [vq [Hq _]].
  exists calls, response, vq. split; [reflexivity |]. split; [exact Hq |].
  vm_compute in E. injection E as _ <-. reflexivity.
Defined.
